(** * Tinpot: a model of the coordinator and worker dispatch code

    Shallow embedding of the Go sources of the tinpot coordinator
    ([cmd/coordinator/main.go], [cmd/coordinator/mqttactions.go], the earlier
    gin-based [coordinator/main.go]) and of the worker's parameter and topic
    handling, result reporting and output capture ([worker/main.go] as
    kept in [worker/configure_python.sh], and [pyActionInfo.trigger] and
    [setupLogCapture]). *)

From Stdlib Require Import ZArith QArith Qround String Ascii List Bool Lia.
From stdpp Require Import base gmap strings list.
Import ListNotations.
Open Scope string_scope.
Set Warnings "-register-all".


(* ------------------------------------------------------------------ *)
(** ** JSON values as Go decodes them into [interface{}] *)

Module Json.

(** [encoding/json] decodes into [nil], [bool], [float64], [string],
    [[]interface{}] and [map[string]interface{}]. A [float64] produced by
    the decoder is modelled by its exact rational value. *)
Inductive value : Type :=
| JNull
| JBool (b : bool)
| JNumber (q : Q)
| JString (s : string)
| JArray (l : list value)
| JObject (kvs : list (string * value)).

End Json.

(* ------------------------------------------------------------------ *)
(** ** Worker: conversion of request parameters to Python values *)

Module Worker.
Import Json.

(** The Python objects the worker can hand to the action callable. *)
Inductive pyobject : Type :=
| PyUnicode (s : string)
| PyLong (z : Z)
| PyFloat (q : Q)
| PyBool (b : bool)
| PyNone
| PyList (l : list pyobject)
| PyDict (kvs : list (string * pyobject)).

(** Go's [int(val)] for a [float64]: truncation toward zero; a value
    outside the range of a 64-bit [int] converts, on amd64, to the
    minimum [int] (the conversion is implementation-specific in Go). *)
Definition Qtrunc (q : Q) : Z :=
  if Qle_bool 0 q then Qfloor q else Qceiling q.

Definition go_int_of_float64 (q : Q) : Z :=
  let t := Qtrunc q in
  if (- 2 ^ 63 <=? t)%Z && (t <? 2 ^ 63)%Z then t else (- 2 ^ 63)%Z.

(** [float64(int(val)) == val] *)
Definition int_roundtrips (q : Q) : bool :=
  Qeq_bool (inject_Z (go_int_of_float64 q)) q.

(** [C.GoString(C.CString(s))]: the bytes of [s] up to its first NUL. *)
Fixpoint c_string (s : string) : string :=
  match s with
  | EmptyString => EmptyString
  | String c s' => if Ascii.eqb c "000"%char then EmptyString else String c (c_string s')
  end.

(** [PyDict_SetItem] on a dictionary with string keys. *)
Fixpoint dict_set {A} (k : string) (v : A) (d : list (string * A))
  : list (string * A) :=
  match d with
  | [] => [(k, v)]
  | (k', v') :: d' =>
      if String.eqb k k' then (k', v) :: d' else (k', v') :: dict_set k v d'
  end.

Section Sprint.
(** [fmt]'s [%v] rendering of a [float64] (shortest [%g] form). *)
Variable format_float : Q -> string.

Fixpoint insert_kv {A} (kv : string * A) (l : list (string * A))
  : list (string * A) :=
  match l with
  | [] => [kv]
  | kv' :: l' =>
      if String.leb kv.1 kv'.1 then kv :: l else kv' :: insert_kv kv l'
  end.

(** [fmt] prints map entries sorted by key. *)
Definition sort_kvs {A} (l : list (string * A)) : list (string * A) :=
  fold_right insert_kv [] l.

(** [fmt.Sprintf("%v", val)] for a decoded JSON value. *)
Fixpoint sprint_v (v : value) : string :=
  match v with
  | JNull => "<nil>"
  | JBool true => "true"
  | JBool false => "false"
  | JNumber q => format_float q
  | JString s => s
  | JArray l => "[" ++ String.concat " " (map sprint_v l) ++ "]"
  | JObject kvs =>
      "map[" ++ String.concat " "
        (map (fun kv => kv.1 ++ ":" ++ kv.2) (sort_kvs
           (map (fun kv => (kv.1, sprint_v kv.2)) kvs))) ++ "]"
  end.

(** The type switch of [executeAction] (worker) and of
    [pyActionInfo.trigger] building each keyword argument. Strings reach
    Python through [cpy3.PyUnicode_FromString], which copies them with
    [C.CString]: the text after the first NUL byte is lost. (Strings
    decoded by [encoding/json] are valid UTF-8, and so is every prefix
    ending before a NUL, so the call does not fail.) *)
Definition to_python (v : value) : pyobject :=
  match v with
  | JString s => PyUnicode (c_string s)
  | JNumber q =>
      if int_roundtrips q then PyLong (go_int_of_float64 q) else PyFloat q
  | JBool b => PyBool b
  | _ => PyUnicode (c_string (sprint_v v))
  end.

(** The [kwargs] dictionary: [PyDict_SetItem] for each request parameter,
    in the map's iteration order, the key also going through
    [PyUnicode_FromString]; a key already present keeps its place and
    takes the new value. *)
Definition build_kwargs (params : list (string * value))
  : list (string * pyobject) :=
  fold_left (fun d kv => dict_set (c_string kv.1) (to_python kv.2) d) params [].
End Sprint.

End Worker.

(* ------------------------------------------------------------------ *)
(** ** Shared types of package [tinpot] ([actions.go]) *)

Module Types.
Import Json.

(** [tinpot.MqttAction]: the payload of a retained announcement. *)
Record MqttAction : Type := mkMqttAction {
  Description : string;
  Group : string;
  Parameters : list string;
  TriggerTopic : string
}.

(** [tinpot.MqttLogEntry] *)
Record MqttLogEntry : Type := mkLogEntry {
  Timestamp : string;
  Level : string;
  Message : string
}.

(** [tinpot.MqttResultResponse] *)
Record MqttResultResponse : Type := mkResult {
  Status : string;
  Result : value;
  Error : string
}.

(** A Go [map[string]interface{}] (as produced by the JSON decoder). *)
Definition gomap := list (string * value).

Definition MQTT_TOPIC_PREFIX := "tinpot/actions/".

(** [strings.Split(s, sep)] for a one-character separator. *)
Fixpoint split_aux (sep : ascii) (s cur : string) : list string :=
  match s with
  | EmptyString => [cur]
  | String a s' =>
      if Ascii.eqb a sep then cur :: split_aux sep s' ""
      else split_aux sep s' (cur ++ String a "")
  end.

Definition split (s : string) (sep : ascii) : list string :=
  split_aux sep s "".

Definition slash : ascii := "/"%char.

(** Whether a string contains a given character. *)
Fixpoint has_char (c : ascii) (s : string) : bool :=
  match s with
  | EmptyString => false
  | String a s' => Ascii.eqb a c || has_char c s'
  end.

End Types.

(* ------------------------------------------------------------------ *)
(** ** Coordinator catalog: [mqttActionManager] *)

Module Catalog.
Import Types.

Section Catalog.
(** [json.Unmarshal(payload, &act)] into a fresh [MqttAction]; [None]
    when it returns an error. *)
Variable unmarshal : string -> option MqttAction.

(** [mqttActionManager.onActionAnnounced] acting on [m.actions]
    (the [log.Printf] lines are omitted). *)
Definition onActionAnnounced (actions : gmap string MqttAction)
    (topic payload : string) : gmap string MqttAction :=
  match split topic slash with
  | [_; _; actionName] =>
      if String.eqb payload "" then delete actionName actions
      else match unmarshal payload with
           | None => actions
           | Some act => <[actionName := act]> actions
           end
  | _ => actions
  end.

(** Delivery of a sequence of announcement messages, in order. *)
Definition deliver_all (actions : gmap string MqttAction)
    (msgs : list (string * string)) : gmap string MqttAction :=
  fold_left (fun acc msg => onActionAnnounced acc msg.1 msg.2) msgs actions.
End Catalog.

(** The action found by [mqttActionManager.GetAction] ([nil] trigger when
    absent); the trigger returned closes over this value. *)
Definition Lookup (actions : gmap string MqttAction) (name : string)
  : option MqttAction := actions !! name.

(** The action name a topic addresses, as parsed by the handler. *)
Definition topic_name (topic : string) : option string :=
  match split topic slash with
  | [_; _; n] => Some n
  | _ => None
  end.

End Catalog.

(* ------------------------------------------------------------------ *)
(** ** Coordinator result handling: [mqttActionExecution.handleResponse] *)

Module Response.
Import Json Types.

(** The arguments given to the [tinpot.ActionResponse] callback:
    [(error, result)], with [None] for a [nil] map. *)
Definition callback_args := (string * option gomap)%type.

(** [handleResponse] for a non-nil callback; [None] when the callback is
    not invoked. The argument is the result of [json.Unmarshal] on the
    payload ([None] on a decoding error). *)
Definition handleResponse (decoded : option MqttResultResponse)
  : option callback_args :=
  match decoded with
  | None => None
  | Some res =>
      if String.eqb (Status res) "SUCCESS" then
        let resMap :=
          match Result res with
          | JObject m => m
          | r => [("value", r)]
          end in
        Some ("", Some resMap)
      else Some (Error res, None)
  end.

End Response.

(* ------------------------------------------------------------------ *)
(** ** Coordinator dispatch: [mqttActionExecution.trigger] and
       [executeAction] *)

Module Dispatch.
Import Json Types.

(** [ExecutionRequest] (coordinator side). *)
Record ExecutionRequest : Type := mkRequest {
  ExecutionID : string;
  ReqParameters : gomap;
  ResultTopic : string;
  LogTopic : string
}.

(** Broker traffic issued by the coordinator, in program order.
    [OpWaitSubAck t] is the blocking [token.Wait()] on the subscription
    token of topic [t]; [OpWaitPubAck] the one on the publish token. *)
Inductive op : Type :=
| OpSubscribe (topic : string) (qos : nat)
| OpWaitSubAck (topic : string)
| OpPublish (topic : string) (qos : nat) (retained : bool)
    (payload : ExecutionRequest)
| OpWaitPubAck
| OpUnsubscribe (topics : list string)
| OpWaitUnsubAck.

Definition is_publish (o : op) : bool :=
  match o with OpPublish _ _ _ _ => true | _ => false end.

(** Lookup in a Go map given as a list with distinct keys. *)
Fixpoint map_get (k : string) (m : gomap) : option value :=
  match m with
  | [] => None
  | (k', v) :: m' => if String.eqb k k' then Some v else map_get k m'
  end.

Definition result_topic_of (execID : string) : string :=
  "tinpot/exec/" ++ execID ++ "/result".
Definition log_topic_of (execID : string) : string :=
  "tinpot/exec/" ++ execID ++ "/log".

(** The outcome of one call of [trigger]: the broker traffic and, when
    the publication failed, the error handed to the response callback. *)
Record trigger_outcome : Type := mkTriggerOutcome {
  t_ops : list op;
  t_request : ExecutionRequest;
  t_publish_error : option string
}.

(** [mqttActionExecution.trigger]. [has_logs] says whether the [logs]
    callback is non-nil; [fresh_id] is the [uuid.New()] fallback;
    [pub_err] the error of the publish token. The error of the
    subscription token is only logged, so it does not appear. *)
Definition trigger (act : MqttAction) (parameters : gomap)
    (has_logs : bool) (fresh_id : string) (pub_err : option string)
    : trigger_outcome :=
  let execID :=
    match map_get "_execution_id" parameters with
    | Some (JString id) => id
    | _ => fresh_id
    end in
  let actualParams :=
    List.filter (fun kv => negb (String.prefix "_" kv.1)) parameters in
  let resultTopic := result_topic_of execID in
  let logTopic := log_topic_of execID in
  let req := mkRequest execID actualParams resultTopic logTopic in
  let subs :=
    ((if has_logs then [OpSubscribe logTopic 0] else []) ++
     [OpSubscribe resultTopic 1; OpWaitSubAck resultTopic])%list in
  let pub := [OpPublish (TriggerTopic act) 1 false req; OpWaitPubAck] in
  match pub_err with
  | None => mkTriggerOutcome (subs ++ pub)%list req None
  | Some e =>
      mkTriggerOutcome
        (subs ++ pub ++ [OpUnsubscribe [resultTopic; logTopic]; OpWaitUnsubAck])%list
        req (Some ("failed to publish request: " ++ e))
  end.

(** HTTP responses written by [writeJSON]. *)
Inductive resp_body : Type :=
| Detail (msg : string)
| Submitted (execution_id action_name status stream_url : string)
| SyncResult (execution_id action_name status : string) (result : option value).

Record http_response : Type := mkResponse {
  code : nat;
  body : resp_body
}.

(** The request body as [json.NewDecoder(r.Body).Decode(&req)] leaves it:
    [None] on a decoding error, [Some None] when [parameters] is absent
    or [null]. *)
Definition request_body := option (option gomap).

(** The first message the result subscription receives, if any, with the
    time (seconds after publication) it arrives and its decoding. *)
Definition arrival := option (nat * option MqttResultResponse).

(** [executeAction] of [cmd/coordinator/main.go]: the time and content of
    the HTTP response ([None] if the handler never writes one) and the
    broker traffic. [execID] is the [uuid.New()] value. *)
Definition executeAction (actions : gmap string MqttAction)
    (actionName : string) (req : request_body) (syncMode : bool)
    (execID : string) (pub_err : option string) (first_result : arrival)
    : option (nat * http_response) * list op :=
  match Catalog.Lookup actions actionName with
  | None =>
      (Some (0, mkResponse 404 (Detail ("Action not found: " ++ actionName))), [])
  | Some act =>
      match req with
      | None => (Some (0, mkResponse 400 (Detail "Invalid request body")), [])
      | Some ps =>
          let params0 := match ps with Some p => p | None => [] end in
          let params :=
            ("_execution_id", JString execID)
              :: List.filter (fun kv => negb (String.eqb kv.1 "_execution_id")) params0 in
          if syncMode then
            let t := trigger act params false execID pub_err in
            let reply (tm : nat) (a : Response.callback_args) :=
              let status := if String.eqb a.1 "" then "SUCCESS" else "FAILURE" in
              Some (tm, mkResponse 200
                      (SyncResult execID actionName status (option_map JObject a.2))) in
            match t_publish_error t with
            | Some e => (reply 0 (e, None), t_ops t)
            | None =>
                match first_result with
                | None => (None, t_ops t)
                | Some (tm, decoded) =>
                    (* the result handler's deferred [closer.Close()] *)
                    let ops :=
                      (t_ops t ++ [OpUnsubscribe [ResultTopic (t_request t);
                                                  LogTopic (t_request t)];
                                   OpWaitUnsubAck])%list in
                    match Response.handleResponse decoded with
                    | None => (None, ops)
                    | Some a => (reply tm a, ops)
                    end
                end
            end
          else
            let t := trigger act params true execID pub_err in
            (Some (0, mkResponse 200
                    (Submitted execID actionName "submitted"
                       ("/api/executions/" ++ execID ++ "/stream"))),
             t_ops t)
      end
  end.

(** [executeAction] of the earlier gin-based [coordinator/main.go]
    (action type [Action] with the same [trigger_topic] field). *)
Definition executeAction_gin (actions : gmap string MqttAction)
    (actionName : string) (req : request_body) (syncMode : bool)
    (execID : string) (pub_err : option string) (first_result : arrival)
    : option (nat * http_response) * list op :=
  match actions !! actionName with
  | None =>
      (Some (0, mkResponse 404 (Detail ("Action not found: " ++ actionName))), [])
  | Some act =>
      match req with
      | None => (Some (0, mkResponse 400 (Detail "Invalid request body")), [])
      | Some ps =>
          let params := match ps with Some p => p | None => [] end in
          let resultTopic := result_topic_of execID in
          let payload :=
            mkRequest execID params resultTopic (log_topic_of execID) in
          let ops :=
            [OpSubscribe resultTopic 1; OpWaitSubAck resultTopic;
             OpPublish (TriggerTopic act) 1 false payload; OpWaitPubAck;
             OpUnsubscribe [resultTopic]] in
          match pub_err with
          | Some _ =>
              (Some (0, mkResponse 500 (Detail "Failed to publish execution request")), ops)
          | None =>
              if syncMode then
                match first_result with
                | Some (tm, Some res) =>
                    if Nat.ltb tm 30 then
                      (Some (tm, mkResponse 200
                               (SyncResult execID actionName (Status res)
                                  (Some (Result res)))), ops)
                    else (Some (30, mkResponse 504 (Detail "Execution timed out")), ops)
                | _ => (Some (30, mkResponse 504 (Detail "Execution timed out")), ops)
                end
              else
                (Some (0, mkResponse 200
                        (Submitted execID actionName "submitted"
                           ("/api/executions/" ++ execID ++ "/stream"))), ops)
          end
      end
  end.

End Dispatch.

(* ------------------------------------------------------------------ *)
(** ** Worker announcements ([discoverActions], [announceActions],
       [subscribeToActions] of the worker's [main.go]) *)

Module WorkerMqtt.
Import Json.

(** The worker's [Action] (the [Function] field is not serialised). *)
Record Action : Type := mkAction {
  Name : string;
  Group : string;
  Description : string;
  Parameters : list (string * value);
  TriggerTopic : string
}.


Inductive wop : Type :=
| WPublish (topic : string) (qos : nat) (retained : bool) (payload : Action)
| WSubscribe (topic : string) (qos : nat).

Definition announceActions (acts : list Action) : list wop :=
  map (fun act => WPublish ("tinpot/actions/" ++ Name act) 1 true act) acts.

Definition subscribeToActions (acts : list Action) : list wop :=
  map (fun act => WSubscribe (TriggerTopic act) 1) acts.

(** The [OnConnectHandler]: announce, then subscribe. *)
Definition on_connect (acts : list Action) : list wop :=
  (announceActions acts ++ subscribeToActions acts)%list.

End WorkerMqtt.

(* ------------------------------------------------------------------ *)
(** ** Coordinator execution registry ([cmd/coordinator/main.go]) *)

Module Registry.
Import Json Types.

(** The [data] of a [StreamEvent]. *)
Inductive event_data : Type :=
| LogData (entry : MqttLogEntry)
| CompleteData (state : string) (successful : bool)
    (result : option (option gomap)) (error : option string).

(** [StreamEvent] *)
Record StreamEvent : Type := mkEvent {
  Type_ : string;
  Data : event_data
}.

Definition is_complete (e : StreamEvent) : bool := String.eqb (Type_ e) "complete".

(** [make(chan StreamEvent, 1000)]: buffer contents and closed flag. *)
Definition capacity : nat := 1000.

Record chan : Type := mkChan {
  buf : list StreamEvent;
  closed : bool
}.

Definition new_chan : chan := mkChan [] false.

(** State of one asynchronous execution as seen by the coordinator:
    the [EventChan], the two subscriptions of [trigger], the lines
    written by [log.Printf], whether the process panicked, and (ghost)
    every event accepted by the channel, in order. *)
Record exec_sim : Type := mkSim {
  ch : chan;
  log_sub : bool;
  result_sub : bool;
  log_lines : list string;
  panicked : bool;
  accepted : list StreamEvent
}.

(** Right after [registerExecution] and [trigger] in async mode. *)
Definition start : exec_sim := mkSim new_chan true true [] false [].

(** [select { case state.EventChan <- ev: ... default: ... }]:
    [None] when the send panics (channel closed), otherwise the new
    channel and whether the value was accepted. *)
Definition try_send (c : chan) (ev : StreamEvent) : option (chan * bool) :=
  if closed c then None
  else if Nat.ltb (length (buf c)) capacity
       then Some (mkChan (buf c ++ [ev])%list false, true)
       else Some (c, false).

(** [close(state.EventChan)]: [None] when it panics. *)
Definition close (c : chan) : option chan :=
  if closed c then None else Some (mkChan (buf c) true).

Definition panic (s : exec_sim) : exec_sim :=
  mkSim (ch s) (log_sub s) (result_sub s) (log_lines s) true (accepted s).

(** The [logCallback] of [executeAction]. *)
Definition logCallback (execID now level message : string) (s : exec_sim)
  : exec_sim :=
  let ev := mkEvent "log" (LogData (mkLogEntry now level message)) in
  match try_send (ch s) ev with
  | None => panic s
  | Some (c, true) =>
      mkSim c (log_sub s) (result_sub s) (log_lines s) false (accepted s ++ [ev])%list
  | Some (c, false) =>
      mkSim c (log_sub s) (result_sub s)
        (log_lines s ++ [("Dropped log for " ++ execID ++ " due to full buffer")%string])%list
        false (accepted s)
  end.

(** The [responseCallback] of [executeAction]. *)
Definition responseCallback (err : string) (res : option gomap) (s : exec_sim)
  : exec_sim :=
  let success := String.eqb err "" in
  let status := if success then "SUCCESS" else "FAILURE" in
  let data :=
    if success then CompleteData status true (Some res) None
    else CompleteData status false None (Some err) in
  let ev := mkEvent "complete" data in
  match try_send (ch s) ev with
  | None => panic s
  | Some (c, ok) =>
      let acc := if ok then (accepted s ++ [ev])%list else accepted s in
      match close c with
      | None => panic s
      | Some c' => mkSim c' (log_sub s) (result_sub s) (log_lines s) false acc
      end
  end.

(** Messages reaching the coordinator's client for this execution
    ([None] payloads are those [json.Unmarshal] rejects); [now] is
    [time.Now().Format(time.RFC3339)] at delivery. *)
Inductive msg : Type :=
| LogMsg (now : string) (entry : option MqttLogEntry)
| ResultMsg (res : option MqttResultResponse).

(** One delivery: the subscription handlers of [trigger] wrapping the
    callbacks. The result handler runs [handleResponse] and then, by its
    deferred [closer.Close()], unsubscribes both topics. A message on a
    topic no longer subscribed has no handler. A panic ends the process. *)
Definition deliver (execID : string) (s : exec_sim) (m : msg) : exec_sim :=
  if panicked s then s else
  match m with
  | LogMsg now e =>
      if log_sub s then
        match e with
        | Some entry => logCallback execID now (Level entry) (Message entry) s
        | None => s
        end
      else s
  | ResultMsg r =>
      if result_sub s then
        let s' :=
          match Response.handleResponse r with
          | Some (err, res) => responseCallback err res s
          | None => s
          end in
        mkSim (ch s') false false (log_lines s') (panicked s') (accepted s')
      else s
  end.

Definition run (execID : string) (s : exec_sim) (ms : list msg) : exec_sim :=
  fold_left (deliver execID) ms s.

(** [registerExecution], [getExecution] and [removeExecution] on the
    [executions] map (the [ExecutionState] reduced to its channel). *)
Definition registerExecution (executions : gmap string chan) (id : string)
  : gmap string chan := <[id := new_chan]> executions.

Definition getExecution (executions : gmap string chan) (id : string)
  : option chan := executions !! id.

Definition removeExecution (executions : gmap string chan) (id : string)
  : gmap string chan := delete id executions.

(** One [data: ...] frame of the SSE response. *)
Inductive sse_line : Type :=
| SseConnected (execution_id : string)
| SseEvent (e : StreamEvent).

Inductive stream_response : Type :=
| StreamError (code : nat) (detail : string)
| Stream (lines : list sse_line) (ended : bool).

(** The receive loop of [streamLogs] on a channel whose producers have
    finished: every buffered event is written; the loop returns when the
    channel is closed and empty, and otherwise stays blocked
    ([ended = false]) until the client goes away. *)
Fixpoint drain (l : list StreamEvent) (is_closed : bool) : list sse_line * bool :=
  match l with
  | [] => ([], is_closed)
  | e :: l' => let '(out, fin) := drain l' is_closed in (SseEvent e :: out, fin)
  end.

(** [streamLogs]; [flusher] says whether the [http.ResponseWriter]
    implements [http.Flusher]. *)
Definition streamLogs (executions : gmap string chan) (execID : string)
    (flusher : bool) : stream_response :=
  match getExecution executions execID with
  | None => StreamError 404 "Execution not found"
  | Some c =>
      if flusher then
        let '(out, fin) := drain (buf c) (closed c) in
        Stream (SseConnected execID :: out) fin
      else StreamError 500 "Streaming unsupported!"
  end.

End Registry.

(* ------------------------------------------------------------------ *)
(** ** Coordinator catalog listing ([mqttActionManager.ListActions]) *)

Module Listing.
Import Types.

(** [tinpot.ActionInfo] *)
Record ActionInfo : Type := mkActionInfo {
  Name : string;
  Description : string;
  Group : string;
  Parameters : list string
}.

(** [mqttActionManager.ListActions]: one entry per catalog name, keyed
    and named by that name. *)
Definition ListActions (actions : gmap string MqttAction)
  : gmap string ActionInfo :=
  map_imap (fun name act =>
    Some (mkActionInfo name (Types.Description act) (Types.Group act)
            (Types.Parameters act))) actions.

End Listing.

(** * The current worker ([cmd/worker]): announcement and subscription *)
Module CurrentWorker.
Import Types.

Definition triggerTopicForAction (actionName : string) : string :=
  "tinpot/actions/" ++ actionName ++ "/trigger".

Definition announceTopicForAction (actionName : string) : string :=
  "tinpot/actions/" ++ actionName.

Definition toMqttAction (act : Listing.ActionInfo) : MqttAction :=
  mkMqttAction (Listing.Description act) (Listing.Group act)
    (Listing.Parameters act) (triggerTopicForAction (Listing.Name act)).

(** Broker traffic of the worker: [c.Publish(topic, qos, retained,
    payload)], the blocking [Wait()] on its token, and [c.Subscribe]. *)
Inductive cop : Type :=
| CPublish (topic : string) (qos : nat) (retained : bool) (payload : MqttAction)
| CWaitPubAck
| CSubscribe (topic : string) (qos : nat).

(** [announceActions] and [subscribeToActions] over the values of
    [mgr.ListActions()], in the order the [range] visits them. *)
Definition announceActions (acts : list Listing.ActionInfo) : list cop :=
  flat_map (fun act =>
    [CPublish (announceTopicForAction (Listing.Name act)) 1 true (toMqttAction act);
     CWaitPubAck]) acts.

Definition subscribeToActions (acts : list Listing.ActionInfo) : list cop :=
  map (fun act => CSubscribe (triggerTopicForAction (Listing.Name act)) 1) acts.

(** The [OnConnectHandler]: announce, then subscribe. *)
Definition on_connect (acts : list Listing.ActionInfo) : list cop :=
  (announceActions acts ++ subscribeToActions acts)%list.

End CurrentWorker.

(* ------------------------------------------------------------------ *)
(** ** Coordinator execution status ([getStatus] of
       [cmd/coordinator/main.go]) *)

Module Status.

(** The JSON object [getStatus] writes. *)
Record status_body : Type := mkStatus {
  execution_id : string;
  state : string;
  ready : bool
}.

(** [getStatus]: the HTTP status code and the body. *)
Definition getStatus (executions : gmap string Registry.chan) (id : string)
  : nat * status_body :=
  let status :=
    match Registry.getExecution executions id with
    | None => "UNKNOWN"
    | Some _ => "PENDING"
    end in
  (200, mkStatus id status false).

End Status.

(* ------------------------------------------------------------------ *)
(** ** Worker: running the action callable and reporting its outcome
       ([executeAction] of the worker's [main.go] as kept in
       [worker/configure_python.sh], and [pyActionInfo.trigger]) *)

Module WorkerExec.
Import Json Types.

(** What the callable returned, when it returned an object:
    [None]; an object whose [json.dumps] output [json.Unmarshal] decodes
    into [v]; one whose [json.dumps] output it rejects (such as [NaN]);
    one [json.dumps] fails on, with its [str] form. *)
Inductive py_return : Type :=
| PyRetNone
| PyRetJson (v : value)
| PyRetUndecodable
| PyRetUnserializable (repr : string).

(** [act.Function.PyObject().Call(argsTuple, kwargs)]: [NULL] with a
    Python exception set, [NULL] without one, or a result. *)
Inductive call_outcome : Type :=
| CallRaised
| CallNullNoError
| CallReturned (r : py_return).

(** The result object published by the worker's [executeAction];
    [json_ok] says whether [python.ImportModule("json")] succeeded. The
    [map[string]interface{}] is marshalled and decoded back by the
    coordinator into the same fields. *)
Definition result_response (json_ok : bool) (o : call_outcome)
  : MqttResultResponse :=
  match o with
  | CallRaised => mkResult "FAILURE" JNull "Exception occurred"
  | CallNullNoError => mkResult "FAILURE" JNull ""
  | CallReturned PyRetNone => mkResult "SUCCESS" JNull ""
  | CallReturned (PyRetJson v) =>
      mkResult "SUCCESS" (if json_ok then v else JString "Result check logs") ""
  | CallReturned PyRetUndecodable =>
      mkResult "SUCCESS" (if json_ok then JNull else JString "Result check logs") ""
  | CallReturned (PyRetUnserializable r) =>
      mkResult "SUCCESS" (if json_ok then JString r else JString "Result check logs") ""
  end.

(** The worker's [executeAction] for the action subscribed under
    [actionName]: [registered] says whether [actions[actionName]] is
    found; [call] is the callable applied to the keyword arguments. The
    result is the single publication it makes: topic, QoS, retained flag
    and payload ([None] when it returns without publishing). *)
Definition executeAction (format_float : Q -> string) (registered : bool)
    (req : Dispatch.ExecutionRequest) (json_ok : bool)
    (call : list (string * Worker.pyobject) -> call_outcome)
    : option (string * nat * bool * MqttResultResponse) :=
  if registered then
    let kwargs := Worker.build_kwargs format_float (Dispatch.ReqParameters req) in
    Some (Dispatch.ResultTopic req, 1, true, result_response json_ok (call kwargs))
  else None.

(** [json.Unmarshal([]byte(jsonStr), &result)] with [result] a
    [map[string]interface{}]: only a JSON object fills it; any other
    value is a type error that leaves it [nil]. *)
Definition decode_map (v : value) : option gomap :=
  match v with
  | JObject kvs => Some kvs
  | _ => None
  end.

(** The arguments [pyActionInfo.trigger] passes to [response];
    [tuple_ok] says whether [PyTuple_New(0)] succeeded. *)
Definition trigger_response (tuple_ok json_ok : bool) (o : call_outcome)
  : Response.callback_args :=
  if negb tuple_ok then ("Internal Error", None) else
  match o with
  | CallRaised => ("Exception occurred", None)
  | CallNullNoError => ("", None)
  | CallReturned PyRetNone => ("", None)
  | CallReturned (PyRetJson v) => ("", if json_ok then decode_map v else None)
  | CallReturned PyRetUndecodable => ("", None)
  | CallReturned (PyRetUnserializable r) =>
      ("", if json_ok then Some [("result", JString r)] else None)
  end.

End WorkerExec.

(* ------------------------------------------------------------------ *)
(** ** Worker: capture of the Python output ([setupLogCapture]) *)

Module LogCapture.
Import Types.

(** [strings.TrimSpace(line) == ""]: every rune of [line] satisfies
    [unicode.IsSpace], read from the UTF-8 bytes: the ASCII spaces
    [\t \n \v \f \r] and space, U+0085, U+00A0, U+1680, U+2000 to
    U+200A, U+2028, U+2029, U+202F, U+205F and U+3000. A byte that does
    not start one of these sequences (an invalid one decodes to
    [RuneError]) is not a space. *)
Fixpoint all_space (s : string) : bool :=
  match s with
  | EmptyString => true
  | String c s1 =>
      let n := nat_of_ascii c in
      if (Nat.eqb n 9 || Nat.eqb n 10 || Nat.eqb n 11 || Nat.eqb n 12
          || Nat.eqb n 13 || Nat.eqb n 32) then all_space s1
      else if Nat.eqb n 194 then
        match s1 with
        | String d s2 =>
            let m := nat_of_ascii d in
            if Nat.eqb m 133 || Nat.eqb m 160 then all_space s2 else false
        | EmptyString => false
        end
      else if Nat.eqb n 225 then
        match s1 with
        | String d (String e s3) =>
            if Nat.eqb (nat_of_ascii d) 154 && Nat.eqb (nat_of_ascii e) 128
            then all_space s3 else false
        | _ => false
        end
      else if Nat.eqb n 226 then
        match s1 with
        | String d (String e s3) =>
            let m := nat_of_ascii d in
            let k := nat_of_ascii e in
            if (Nat.eqb m 128 && (Nat.leb 128 k && Nat.leb k 138
                                  || Nat.eqb k 168 || Nat.eqb k 169
                                  || Nat.eqb k 175))
               || (Nat.eqb m 129 && Nat.eqb k 159)
            then all_space s3 else false
        | _ => false
        end
      else if Nat.eqb n 227 then
        match s1 with
        | String d (String e s3) =>
            if Nat.eqb (nat_of_ascii d) 128 && Nat.eqb (nat_of_ascii e) 128
            then all_space s3 else false
        | _ => false
        end
      else false
  end.

Definition newline : ascii := "010"%char.

(** The lines one [r.Read(buf)] of up to 1024 bytes hands on: the chunk
    split on ["\n"], blank lines skipped. *)
Definition capture_chunk (chunk : string) : list string :=
  List.filter (fun line => negb (all_space line)) (split chunk newline).

(** [pyActionInfo]'s [setupLogCapture]: the [callback] calls. *)
Definition callback_calls (chunk : string) : list (string * string) :=
  map (fun line => ("INFO", line)) (capture_chunk chunk).

(** The worker's [setupLogCapture]: each line is published, at QoS 0 and
    not retained, to the log topic of the running execution, or written
    to the local log when no execution runs ([currentLogTopic] empty). *)
Inductive log_out : Type :=
| LPublish (topic : string) (qos : nat) (retained : bool) (entry : MqttLogEntry)
| LLocal (line : string).

Definition publish_lines (currentLogTopic now chunk : string) : list log_out :=
  map (fun line =>
         if String.eqb currentLogTopic "" then LLocal ("[PY] " ++ line)
         else LPublish currentLogTopic 0 false (mkLogEntry now "INFO" line))
      (capture_chunk chunk).

End LogCapture.

(* ------------------------------------------------------------------ *)
(** ** Sample inputs *)

Module Samples.
Import Json Types.

Definition clean_cache : MqttAction :=
  mkMqttAction "Clean cache" "maintenance" ["days"] "tinpot/ops/clean_cache/run".

Definition clean_cache_info : Listing.ActionInfo :=
  Listing.mkActionInfo "clean_cache" "Clean cache" "maintenance" ["days"].

Definition catalog1 : gmap string MqttAction := <["clean_cache" := clean_cache]> ∅.

Definition log_event (msg : string) : Registry.StreamEvent :=
  Registry.mkEvent "log" (Registry.LogData (mkLogEntry "2026-01-01T00:00:00Z" "INFO" msg)).

Definition registry1 : gmap string Registry.chan :=
  <["id-1" := Registry.mkChan [log_event "Starting health check"] false]>
    (Registry.registerExecution ∅ "id-0").

Definition sample_log : Registry.msg :=
  Registry.LogMsg "2026-01-01T00:00:00Z"
    (Some (mkLogEntry "2026-01-01T00:00:00Z" "INFO" "line")).

Definition sample_result : Registry.msg :=
  Registry.ResultMsg (Some (mkResult "SUCCESS" (JObject []) "")).

End Samples.

(* ================================================================== *)
(** * Properties *)

Import Json Types.
Import Samples.

(** Sanity checks of the model on small inputs. *)
Example split_topic : split "tinpot/actions/clean_cache" slash
  = ["tinpot"; "actions"; "clean_cache"].
Proof. reflexivity. Qed.

Example to_python_int : Worker.to_python (fun _ => "") (JNumber 5) = Worker.PyLong 5.
Proof. reflexivity. Qed.

Example to_python_float :
  Worker.to_python (fun _ => "") (JNumber (5 # 2)) = Worker.PyFloat (5 # 2).
Proof. reflexivity. Qed.

Example sprint_map :
  Worker.sprint_v (fun _ => "1") (JObject [("b", JBool true); ("a", JArray [JNull; JString "x"])])
  = "map[a:[<nil> x] b:true]".
Proof. reflexivity. Qed.

(** C6: for an action absent from the catalog, both coordinators answer
    404 with [{"detail": "Action not found: <name>"}] and issue no broker
    operation (no subscription, no publication). *)
Theorem executeAction_unknown_action_404
    (actions : gmap string MqttAction) (actionName : string)
    (req : Dispatch.request_body) (syncMode : bool) (execID : string)
    (pub_err : option string) (first_result : Dispatch.arrival)
    (Hnone : Catalog.Lookup actions actionName = None) :
  Dispatch.executeAction actions actionName req syncMode execID pub_err first_result
    = (Some (0, Dispatch.mkResponse 404
                  (Dispatch.Detail ("Action not found: " ++ actionName))), [])
  /\ Dispatch.executeAction_gin actions actionName req syncMode execID pub_err first_result
    = (Some (0, Dispatch.mkResponse 404
                  (Dispatch.Detail ("Action not found: " ++ actionName))), []).
Proof.
  unfold Dispatch.executeAction, Dispatch.executeAction_gin.
  rewrite Hnone. unfold Catalog.Lookup in Hnone. rewrite Hnone. split; reflexivity.
Qed.

Lemma executeAction_unknown_action_404_witness :
  Catalog.Lookup catalog1 "does_not_exist" = None /\
  (Dispatch.executeAction catalog1 "does_not_exist" (Some None) false "id-1" None None
    = (Some (0, Dispatch.mkResponse 404
                  (Dispatch.Detail ("Action not found: " ++ "does_not_exist"))), [])
  /\ Dispatch.executeAction_gin catalog1 "does_not_exist" (Some None) false "id-1" None None
    = (Some (0, Dispatch.mkResponse 404
                  (Dispatch.Detail ("Action not found: " ++ "does_not_exist"))), [])).
Proof.
  assert (H : Catalog.Lookup catalog1 "does_not_exist" = None) by reflexivity.
  split; [exact H | apply (executeAction_unknown_action_404 _ _ _ _ _ _ _ H)].
Defined.

(** C10: [handleResponse] passes a JSON-object result of a [SUCCESS]
    response through unchanged, wraps any other result as
    [{"value": result}], and on any other status gives the callback the
    error string and a [nil] result. *)
Theorem handleResponse_wraps_non_object (res : MqttResultResponse) :
  (Status res = "SUCCESS" ->
     forall m : gomap, Result res = JObject m ->
       Response.handleResponse (Some res) = Some ("", Some m))
  /\ (Status res = "SUCCESS" ->
       (forall m : gomap, Result res <> JObject m) ->
       Response.handleResponse (Some res) = Some ("", Some [("value", Result res)]))
  /\ (Status res <> "SUCCESS" ->
       Response.handleResponse (Some res) = Some (Error res, None)).
Proof.
  unfold Response.handleResponse.
  destruct res as [st r e]; simpl.
  split; [|split].
  - intros -> m ->. reflexivity.
  - intros -> Hnot. destruct r; try reflexivity.
    exfalso. exact (Hnot kvs eq_refl).
  - intros Hst. destruct (String.eqb_spec st "SUCCESS"); [contradiction | reflexivity].
Qed.

Lemma handleResponse_wraps_non_object_witness :
  Response.handleResponse (Some (mkResult "SUCCESS" (JNumber 42) ""))
    = Some ("", Some [("value", JNumber 42)])
  /\ Response.handleResponse (Some (mkResult "SUCCESS" (JObject [("files_deleted", JNumber 42)]) ""))
    = Some ("", Some [("files_deleted", JNumber 42)])
  /\ Response.handleResponse (Some (mkResult "FAILURE" JNull "Exception occurred"))
    = Some ("Exception occurred", None).
Proof.
  split; [|split].
  - apply (proj1 (proj2 (handleResponse_wraps_non_object (mkResult "SUCCESS" (JNumber 42) ""))));
      [reflexivity | discriminate].
  - apply (proj1 (handleResponse_wraps_non_object
                    (mkResult "SUCCESS" (JObject [("files_deleted", JNumber 42)]) "")));
      reflexivity.
  - apply (proj2 (proj2 (handleResponse_wraps_non_object
                           (mkResult "FAILURE" JNull "Exception occurred")))).
    discriminate.
Defined.

Lemma drain_lines (l : list Registry.StreamEvent) (b : bool) :
  Registry.drain l b = (map Registry.SseEvent l, b).
Proof.
  induction l as [|e l IH]; simpl; [reflexivity|]. rewrite IH. reflexivity.
Qed.

(** C9: [GET /api/executions/{id}/stream] answers 404 when no execution
    state is registered for [id]; otherwise (with the [net/http] response
    writer, which implements [http.Flusher]) the stream starts with the
    [connected] frame, followed by the queued events in order. *)
Theorem streamLogs_404_or_connected_first
    (executions : gmap string Registry.chan) (execID : string) :
  (Registry.getExecution executions execID = None ->
     forall flusher : bool,
       Registry.streamLogs executions execID flusher
         = Registry.StreamError 404 "Execution not found")
  /\ (forall c : Registry.chan,
        Registry.getExecution executions execID = Some c ->
        Registry.streamLogs executions execID true
          = Registry.Stream
              (Registry.SseConnected execID :: map Registry.SseEvent (Registry.buf c))
              (Registry.closed c)).
Proof.
  unfold Registry.streamLogs. split.
  - intros Hnone flusher. rewrite Hnone. reflexivity.
  - intros c Hc. rewrite Hc, drain_lines. reflexivity.
Qed.

Lemma streamLogs_404_or_connected_first_witness :
  Registry.streamLogs registry1 "unknown" false
    = Registry.StreamError 404 "Execution not found"
  /\ Registry.streamLogs registry1 "id-1" true
    = Registry.Stream
        [Registry.SseConnected "id-1"; Registry.SseEvent (log_event "Starting health check")]
        false.
Proof.
  split.
  - apply (proj1 (streamLogs_404_or_connected_first registry1 "unknown")).
    reflexivity.
  - apply (proj2 (streamLogs_404_or_connected_first registry1 "id-1")
             (Registry.mkChan [log_event "Starting health check"] false)).
    reflexivity.
Defined.

(** C4 (counterexample): a JSON [null] parameter reaches the callable as
    the Python string ["<nil>"], not as [None], whatever the float
    formatting; likewise an array is not passed as a Python list. *)
Lemma to_python_null_is_string :
  (forall ff : Q -> string, Worker.to_python ff JNull = Worker.PyUnicode "<nil>")
  /\ ~ (exists ff : Q -> string, Worker.to_python ff JNull = Worker.PyNone)
  /\ ~ (exists (ff : Q -> string) (l : list Worker.pyobject),
          Worker.to_python ff (JArray [JString "a"; JString "b"]) = Worker.PyList l).
Proof.
  split; [|split].
  - intros ff. reflexivity.
  - intros [ff H]. discriminate H.
  - intros [ff [l H]]. discriminate H.
Qed.

Lemma Qtrunc_int (q : Q) (z : Z) : q == inject_Z z -> Worker.Qtrunc q = z.
Proof.
  intros Hq. unfold Worker.Qtrunc.
  destruct (Qle_bool 0 q).
  - rewrite Hq. apply Qfloor_Z.
  - rewrite Hq. apply Qceiling_Z.
Qed.

Lemma dict_set_keys {A} (k : string) (v : A) (d : list (string * A)) :
  map fst (Worker.dict_set k v d)
  = if existsb (String.eqb k) (map fst d) then map fst d else (map fst d ++ [k])%list.
Proof.
  induction d as [|[k' v'] d IH]; [reflexivity|]. simpl.
  destruct (String.eqb k k'); simpl; [reflexivity|]. rewrite IH.
  destruct (existsb (String.eqb k) (map fst d)); reflexivity.
Qed.

Lemma NoDup_snoc {A} (l : list A) (x : A) :
  List.NoDup l -> ~ In x l -> List.NoDup (l ++ [x])%list.
Proof.
  induction l as [|a l IH]; intros Hn Hx; simpl.
  - constructor; [intros []|constructor].
  - inversion Hn as [|? ? Ha Hl]; subst. constructor.
    + rewrite in_app_iff. intros [H|[H|[]]]; [exact (Ha H)|]. subst. apply Hx. left. reflexivity.
    + apply IH; [exact Hl|]. intros H. apply Hx. right. exact H.
Qed.

Lemma build_kwargs_fold_keys {A} (f : value -> A) (params : list (string * value))
    (d : list (string * A)) :
  List.NoDup (map fst d) ->
  let d' := fold_left (fun d kv => Worker.dict_set (Worker.c_string kv.1) (f kv.2) d)
              params d in
  List.NoDup (map fst d')
  /\ (forall k, In k (map fst d') <->
                In k (map fst d) \/ In k (map (fun kv => Worker.c_string kv.1) params)).
Proof.
  revert d. induction params as [|kv params IH]; intros d Hd; simpl.
  - split; [exact Hd|]. intros k. tauto.
  - destruct (IH (Worker.dict_set (Worker.c_string kv.1) (f kv.2) d)) as [H1 H2].
    { rewrite dict_set_keys. destruct (existsb _ _) eqn:E; [exact Hd|].
      apply NoDup_snoc; [exact Hd|]. intros Hin.
      assert (Hex : existsb (String.eqb (Worker.c_string kv.1)) (map fst d) = true).
      { apply existsb_exists. exists (Worker.c_string kv.1). split; [exact Hin|].
        apply String.eqb_refl. }
      congruence. }
    split; [exact H1|]. intros k. rewrite H2, dict_set_keys.
    destruct (existsb (String.eqb (Worker.c_string kv.1)) (map fst d)) eqn:E.
    + apply existsb_exists in E as [x [Hx Hxe]]. apply String.eqb_eq in Hxe. subst x.
      split; [tauto|]. intros [H|[H|H]]; [tauto| |tauto]. left. rewrite <- H. exact Hx.
    + rewrite in_app_iff. simpl. split; [intros [[H|[H|[]]]|H]; tauto|].
      intros [H|[H|H]]; [tauto| |tauto]. left. right. left. exact H.
Qed.

Lemma c_string_prefix_underscore (k : string) :
  String.prefix "_" (Worker.c_string k) = true -> String.prefix "_" k = true.
Proof.
  intros H. destruct k as [|c k]; [discriminate|]. cbn [Worker.c_string] in H.
  destruct (Ascii.eqb c "000"%char); [discriminate|].
  cbn -[ascii_dec] in H |- *.
  destruct (ascii_dec "_" c); [destruct k; reflexivity|discriminate].
Qed.

(** C4 (as the code does it): strings, booleans and numbers are converted
    by type; a string reaches Python cut at its first NUL byte (unchanged
    when it has none); a number becomes a Python [int] when it is
    integer-valued and within the 64-bit [int] range
    ([float64(int(val)) == val]) and a Python [float] when it is not
    integer-valued; [null], arrays and objects become a Python [str]
    holding Go's [%v] rendering (cut at its first NUL). The keyword
    arguments are named by the parameter names cut the same way, each
    name once. *)
Theorem to_python_conversion (ff : Q -> string) :
  (forall s, Worker.to_python ff (JString s) = Worker.PyUnicode (Worker.c_string s))
  /\ (forall s, has_char "000"%char s = false -> Worker.c_string s = s)
  /\ (forall b, Worker.to_python ff (JBool b) = Worker.PyBool b)
  /\ (forall (q : Q) (z : Z), q == inject_Z z -> (- 2 ^ 63 <= z < 2 ^ 63)%Z ->
        Worker.to_python ff (JNumber q) = Worker.PyLong z)
  /\ (forall q : Q, (forall z : Z, ~ q == inject_Z z) ->
        Worker.to_python ff (JNumber q) = Worker.PyFloat q)
  /\ Worker.to_python ff JNull = Worker.PyUnicode "<nil>"
  /\ (forall l, Worker.to_python ff (JArray l)
                = Worker.PyUnicode (Worker.c_string
                    ("[" ++ String.concat " " (map (Worker.sprint_v ff) l) ++ "]")))
  /\ (forall kvs, Worker.to_python ff (JObject kvs)
                  = Worker.PyUnicode (Worker.c_string (Worker.sprint_v ff (JObject kvs))))
  /\ (forall params,
        List.NoDup (map fst (Worker.build_kwargs ff params))
        /\ forall k, In k (map fst (Worker.build_kwargs ff params))
                     <-> In k (map (fun kv => Worker.c_string kv.1) params)).
Proof.
  split; [reflexivity|]. split.
  { induction s as [|c s IH]; intros H; [reflexivity|]. simpl in H |- *.
    apply orb_false_iff in H as [Hc Hs]. rewrite Hc, IH by exact Hs.
    reflexivity. }
  split; [reflexivity|].
  split; [|split; [|split; [reflexivity|split; [reflexivity|split; [reflexivity|]]]]].
  - intros q z Hq Hz. simpl.
    assert (Hi : Worker.go_int_of_float64 q = z).
    { unfold Worker.go_int_of_float64. rewrite (Qtrunc_int q z Hq).
      destruct Hz as [Hlo Hhi].
      apply Z.leb_le in Hlo. apply Z.ltb_lt in Hhi. rewrite Hlo, Hhi. reflexivity. }
    unfold Worker.int_roundtrips. rewrite Hi.
    assert (Hb : Qeq_bool (inject_Z z) q = true).
    { apply Qeq_bool_iff. symmetry. exact Hq. }
    rewrite Hb. reflexivity.
  - intros q Hnot. simpl. unfold Worker.int_roundtrips.
    destruct (Qeq_bool (inject_Z (Worker.go_int_of_float64 q)) q) eqn:E.
    + apply Qeq_bool_iff in E. exfalso. apply (Hnot (Worker.go_int_of_float64 q)).
      symmetry. exact E.
    + reflexivity.
  - intros params. destruct (build_kwargs_fold_keys (Worker.to_python ff) params []
                               (List.NoDup_nil _)) as [H1 H2].
    split; [exact H1|]. intros k. unfold Worker.build_kwargs. rewrite H2. simpl. tauto.
Qed.

Lemma to_python_conversion_witness :
  Worker.c_string "ab" = "ab"
  /\ Worker.to_python (fun _ => "") (JNumber 5) = Worker.PyLong 5
  /\ Worker.to_python (fun _ => "") (JNumber (5 # 2)) = Worker.PyFloat (5 # 2).
Proof.
  split; [|split].
  - apply (proj1 (proj2 (to_python_conversion (fun _ => "")))). reflexivity.
  - apply (proj1 (proj2 (proj2 (proj2 (to_python_conversion (fun _ => "")))))).
    + reflexivity.
    + lia.
  - apply (proj1 (proj2 (proj2 (proj2 (proj2 (to_python_conversion (fun _ => ""))))))).
    intros z Hz. unfold Qeq in Hz. simpl in Hz. lia.
Defined.

Lemma str_app_cons (x : ascii) (a b : string) : String x a ++ b = String x (a ++ b).
Proof. reflexivity. Qed.

Lemma str_app_nil_r (a : string) : a ++ "" = a.
Proof. induction a as [|x a IH]; [reflexivity|]. rewrite str_app_cons, IH. reflexivity. Qed.

Lemma str_app_assoc (a b c : string) : (a ++ b) ++ c = a ++ (b ++ c).
Proof.
  induction a as [|x a IH]; [reflexivity|]. rewrite !str_app_cons, IH. reflexivity.
Qed.

Lemma split_aux_nosep (sep : ascii) (s cur : string) :
  has_char sep s = false -> split_aux sep s cur = [cur ++ s].
Proof.
  revert cur. induction s as [|a s IH]; intros cur H; simpl in *.
  - rewrite str_app_nil_r. reflexivity.
  - apply orb_false_iff in H as [Ha Hs]. rewrite Ha, IH by exact Hs.
    rewrite str_app_assoc, str_app_cons. reflexivity.
Qed.

Lemma split_action_topic (name : string) :
  has_char slash name = false ->
  split ("tinpot/actions/" ++ name) slash = ["tinpot"; "actions"; name].
Proof.
  intros H. unfold split. rewrite !str_app_cons. cbn [split_aux Ascii.eqb].
  rewrite split_aux_nosep by exact H. reflexivity.
Qed.

Lemma onActionAnnounced_other (unmarshal : string -> option MqttAction)
    (actions : gmap string MqttAction) (name topic payload : string) :
  Catalog.topic_name topic <> Some name ->
  Catalog.Lookup (Catalog.onActionAnnounced unmarshal actions topic payload) name
    = Catalog.Lookup actions name.
Proof.
  unfold Catalog.topic_name, Catalog.onActionAnnounced, Catalog.Lookup.
  destruct (split topic slash) as [|a [|b [|c [|d l]]]]; intros Hne; try reflexivity.
  assert (Hc : c <> name) by congruence.
  destruct (String.eqb payload "").
  - apply lookup_delete_ne. exact Hc.
  - destruct (unmarshal payload); [|reflexivity].
    apply lookup_insert_ne. exact Hc.
Qed.

Lemma deliver_all_others (unmarshal : string -> option MqttAction)
    (actions : gmap string MqttAction) (name : string) (msgs : list (string * string)) :
  Forall (fun m => Catalog.topic_name m.1 <> Some name) msgs ->
  Catalog.Lookup (Catalog.deliver_all unmarshal actions msgs) name
    = Catalog.Lookup actions name.
Proof.
  unfold Catalog.deliver_all. revert actions.
  induction msgs as [|m msgs IH]; intros actions Hall; simpl; [reflexivity|].
  inversion Hall as [|? ? Hm Hrest]; subst.
  rewrite IH by exact Hrest. apply onActionAnnounced_other. exact Hm.
Qed.

(** C7 (counterexample): a non-empty announcement that [json.Unmarshal]
    rejects (such as ["{"]) leaves the earlier catalog entry in place, so
    after it [Lookup] is neither [nil] nor derived from that payload. *)
Lemma catalog_keeps_stale_entry :
  (forall unmarshal : string -> option MqttAction, unmarshal "{" = None ->
     Catalog.Lookup
       (Catalog.onActionAnnounced unmarshal catalog1 "tinpot/actions/clean_cache" "{")
       "clean_cache" = Some clean_cache)
  /\ ~ (exists unmarshal : string -> option MqttAction,
          unmarshal "{" = None /\
          forall (actions : gmap string MqttAction) (name p : string), p <> "" ->
            Catalog.Lookup
              (Catalog.onActionAnnounced unmarshal actions ("tinpot/actions/" ++ name) p)
              name = unmarshal p).
Proof.
  assert (Hstale : forall unmarshal : string -> option MqttAction, unmarshal "{" = None ->
     Catalog.Lookup
       (Catalog.onActionAnnounced unmarshal catalog1 "tinpot/actions/clean_cache" "{")
       "clean_cache" = Some clean_cache).
  { intros u Hu. unfold Catalog.onActionAnnounced. simpl. rewrite Hu. reflexivity. }
  split; [exact Hstale|].
  intros [u [Hu Hall]].
  specialize (Hall catalog1 "clean_cache" "{" ltac:(discriminate)).
  change ("tinpot/actions/" ++ "clean_cache") with "tinpot/actions/clean_cache" in Hall.
  rewrite (Hstale u Hu), Hu in Hall. discriminate Hall.
Qed.

(** C7 (as the code does it): for a topic [tinpot/actions/{name}] with
    [name] free of ['/'], an empty payload removes [name], a payload that
    decodes is upserted, and a non-empty payload that does not decode is
    dropped. Messages for other names do not affect [name]; so after the
    most recent announcement for [name], [Lookup name] is [nil] if it was
    empty, its decoded payload if it decodes, and the earlier entry
    otherwise. *)
Theorem catalog_last_announcement (unmarshal : string -> option MqttAction)
    (actions : gmap string MqttAction) (name p : string)
    (msgs : list (string * string))
    (Hname : has_char slash name = false)
    (Hothers : Forall (fun m => Catalog.topic_name m.1 <> Some name) msgs) :
  Catalog.Lookup
    (Catalog.deliver_all unmarshal actions (("tinpot/actions/" ++ name, p) :: msgs)) name
  = if String.eqb p "" then None
    else match unmarshal p with
         | Some a => Some a
         | None => Catalog.Lookup actions name
         end.
Proof.
  unfold Catalog.deliver_all. simpl. fold (Catalog.deliver_all unmarshal
    (Catalog.onActionAnnounced unmarshal actions ("tinpot/actions/" ++ name) p) msgs).
  rewrite deliver_all_others by exact Hothers.
  unfold Catalog.onActionAnnounced, Catalog.Lookup.
  rewrite split_action_topic by exact Hname.
  destruct (String.eqb p "").
  - apply lookup_delete_eq.
  - destruct (unmarshal p); [apply lookup_insert_eq | reflexivity].
Qed.

Lemma catalog_last_announcement_witness :
  Catalog.Lookup
    (Catalog.deliver_all (fun _ => Some clean_cache) ∅
       [("tinpot/actions/" ++ "clean_cache", "x"); ("tinpot/actions/other", "")])
    "clean_cache" = Some clean_cache.
Proof.
  apply (catalog_last_announcement (fun _ => Some clean_cache) ∅ "clean_cache" "x"
           [("tinpot/actions/other", "")]).
  - reflexivity.
  - constructor; [|constructor]. simpl. discriminate.
Defined.

(** C3 (counterexample): in async mode [trigger] subscribes the log topic
    at QoS 0 and never waits for that subscription's acknowledgment; the
    earlier coordinator does not subscribe the log topic at dispatch. *)
Lemma log_subscription_qos0_unacknowledged :
  Dispatch.executeAction catalog1 "clean_cache" (Some None) false "id-1" None None
  = (Some (0, Dispatch.mkResponse 200
                (Dispatch.Submitted "id-1" "clean_cache" "submitted"
                   "/api/executions/id-1/stream")),
     [Dispatch.OpSubscribe "tinpot/exec/id-1/log" 0;
      Dispatch.OpSubscribe "tinpot/exec/id-1/result" 1;
      Dispatch.OpWaitSubAck "tinpot/exec/id-1/result";
      Dispatch.OpPublish "tinpot/ops/clean_cache/run" 1 false
        (Dispatch.mkRequest "id-1" [] "tinpot/exec/id-1/result" "tinpot/exec/id-1/log");
      Dispatch.OpWaitPubAck])
  /\ (Dispatch.executeAction_gin catalog1 "clean_cache" (Some None) false "id-1" None None).2
  = [Dispatch.OpSubscribe "tinpot/exec/id-1/result" 1;
     Dispatch.OpWaitSubAck "tinpot/exec/id-1/result";
     Dispatch.OpPublish "tinpot/ops/clean_cache/run" 1 false
       (Dispatch.mkRequest "id-1" [] "tinpot/exec/id-1/result" "tinpot/exec/id-1/log");
     Dispatch.OpWaitPubAck;
     Dispatch.OpUnsubscribe ["tinpot/exec/id-1/result"]].
Proof. split; vm_compute; reflexivity. Qed.

(** C3 (as the code does it): for a known action, the coordinator's first
    broker operations are, in async mode, a QoS 0 subscription to the log
    topic (not waited for), then a QoS 1 subscription to the result topic
    and a blocking wait on its acknowledgment, and only then the single
    publication of the request; in sync mode there is no log subscription.
    The earlier coordinator subscribes only the result topic (QoS 1,
    waited for) before publishing. *)
Theorem subscribe_result_before_publish
    (actions : gmap string MqttAction) (actionName : string) (act : MqttAction)
    (ps : option gomap) (syncMode : bool) (execID : string)
    (pub_err : option string) (first_result : Dispatch.arrival)
    (Hact : Catalog.Lookup actions actionName = Some act) :
  (exists req post,
      (Dispatch.executeAction actions actionName (Some ps) syncMode execID pub_err
         first_result).2
      = ((if syncMode then [] else [Dispatch.OpSubscribe (Dispatch.log_topic_of execID) 0])
         ++ [Dispatch.OpSubscribe (Dispatch.result_topic_of execID) 1;
             Dispatch.OpWaitSubAck (Dispatch.result_topic_of execID);
             Dispatch.OpPublish (TriggerTopic act) 1 false req] ++ post)%list
      /\ Forall (fun o => Dispatch.is_publish o = false) post)
  /\ (exists req post,
      (Dispatch.executeAction_gin actions actionName (Some ps) syncMode execID pub_err
         first_result).2
      = ([Dispatch.OpSubscribe (Dispatch.result_topic_of execID) 1;
         Dispatch.OpWaitSubAck (Dispatch.result_topic_of execID);
         Dispatch.OpPublish (TriggerTopic act) 1 false req] ++ post)%list
      /\ Forall (fun o => Dispatch.is_publish o = false) post).
Proof.
  unfold Catalog.Lookup in Hact. split.
  - unfold Dispatch.executeAction, Catalog.Lookup. rewrite Hact.
    destruct syncMode, pub_err; unfold Dispatch.trigger; simpl;
      try (destruct first_result as [[tm d]|];
           [destruct (Response.handleResponse d) |]);
      (eexists; eexists; split; [reflexivity | repeat constructor]).
  - unfold Dispatch.executeAction_gin. rewrite Hact.
    destruct pub_err, syncMode; simpl;
      try (destruct first_result as [[tm [r|]]|]; [destruct (Nat.ltb tm 30)| |]);
      (eexists; eexists; split; [reflexivity | repeat constructor]).
Qed.

Lemma subscribe_result_before_publish_witness :
  exists req post,
    (Dispatch.executeAction catalog1 "clean_cache" (Some None) false "id-1" None None).2
    = ([Dispatch.OpSubscribe (Dispatch.log_topic_of "id-1") 0]
       ++ [Dispatch.OpSubscribe (Dispatch.result_topic_of "id-1") 1;
           Dispatch.OpWaitSubAck (Dispatch.result_topic_of "id-1");
           Dispatch.OpPublish (TriggerTopic clean_cache) 1 false req] ++ post)%list
    /\ Forall (fun o => Dispatch.is_publish o = false) post.
Proof.
  exact (proj1 (subscribe_result_before_publish catalog1 "clean_cache" clean_cache
                  None false "id-1" None None eq_refl)).
Defined.

Lemma executeAction_publishes_once (actions : gmap string MqttAction)
    (name : string) (act : MqttAction) (ps : option gomap) (syncMode : bool)
    (execID : string) (pub_err : option string) (first_result : Dispatch.arrival) :
  Catalog.Lookup actions name = Some act ->
  exists req,
    List.filter Dispatch.is_publish
      (Dispatch.executeAction actions name (Some ps) syncMode execID pub_err
         first_result).2
    = [Dispatch.OpPublish (TriggerTopic act) 1 false req].
Proof.
  intros Hact. unfold Catalog.Lookup in Hact.
  unfold Dispatch.executeAction, Catalog.Lookup. rewrite Hact.
  destruct syncMode, pub_err; unfold Dispatch.trigger; simpl;
    try (destruct first_result as [[tm dd]|];
         [destruct (Response.handleResponse dd) |]);
    (eexists; reflexivity).
Qed.

Lemma onActionAnnounced_inserts (unmarshal : string -> option MqttAction)
    (actions : gmap string MqttAction) (name payload : string) (act : MqttAction) :
  has_char slash name = false -> payload <> "" -> unmarshal payload = Some act ->
  Catalog.Lookup
    (Catalog.onActionAnnounced unmarshal actions ("tinpot/actions/" ++ name) payload)
    name = Some act.
Proof.
  intros Hname Hp Hun. unfold Catalog.onActionAnnounced.
  rewrite split_action_topic by exact Hname.
  destruct (String.eqb payload "") eqn:E; [apply String.eqb_eq in E; contradiction|].
  rewrite Hun. unfold Catalog.Lookup. apply lookup_insert_eq.
Qed.

(** C8: for every action [info] the current worker lists, the action it
    announces carries the trigger topic [tinpot/actions/{name}/trigger];
    on connect it publishes that action (retained, QoS 1) on
    [tinpot/actions/{name}] and subscribes to the trigger topic at QoS 1;
    and once the coordinator has received the announcement, each
    execution of [name] publishes its [ExecutionRequest] exactly once, on
    that trigger topic, with QoS 1 and the retained flag unset. *)
Theorem trigger_topic_actions_trigger (acts : list Listing.ActionInfo)
    (info : Listing.ActionInfo) (Hin : In info acts) :
  TriggerTopic (CurrentWorker.toMqttAction info)
    = "tinpot/actions/" ++ Listing.Name info ++ "/trigger"
  /\ In (CurrentWorker.CPublish ("tinpot/actions/" ++ Listing.Name info) 1 true
          (CurrentWorker.toMqttAction info))
        (CurrentWorker.on_connect acts)
  /\ In (CurrentWorker.CSubscribe ("tinpot/actions/" ++ Listing.Name info ++ "/trigger") 1)
        (CurrentWorker.on_connect acts)
  /\ (forall (unmarshal : string -> option MqttAction) (payload : string)
        (actions : gmap string MqttAction) (ps : option gomap) (syncMode : bool)
        (execID : string) (pub_err : option string) (first_result : Dispatch.arrival),
        has_char slash (Listing.Name info) = false ->
        payload <> "" ->
        unmarshal payload = Some (CurrentWorker.toMqttAction info) ->
        exists req,
          List.filter Dispatch.is_publish
            (Dispatch.executeAction
               (Catalog.onActionAnnounced unmarshal actions
                  ("tinpot/actions/" ++ Listing.Name info) payload)
               (Listing.Name info) (Some ps) syncMode execID pub_err first_result).2
          = [Dispatch.OpPublish ("tinpot/actions/" ++ Listing.Name info ++ "/trigger")
               1 false req]).
Proof.
  split; [reflexivity|]. split; [|split].
  - unfold CurrentWorker.on_connect. apply in_or_app. left.
    unfold CurrentWorker.announceActions. apply in_flat_map.
    exists info. split; [exact Hin|left; reflexivity].
  - unfold CurrentWorker.on_connect. apply in_or_app. right.
    exact (in_map (fun act => CurrentWorker.CSubscribe
                      (CurrentWorker.triggerTopicForAction (Listing.Name act)) 1)
             acts info Hin).
  - intros unmarshal payload actions ps syncMode execID pub_err first_result
      Hname Hp Hun.
    exact (executeAction_publishes_once _ (Listing.Name info)
             (CurrentWorker.toMqttAction info) ps syncMode execID pub_err first_result
             (onActionAnnounced_inserts unmarshal actions (Listing.Name info) payload
                _ Hname Hp Hun)).
Qed.

Lemma trigger_topic_actions_trigger_witness :
  In (CurrentWorker.CSubscribe "tinpot/actions/clean_cache/trigger" 1)
     (CurrentWorker.on_connect [clean_cache_info])
  /\ exists req,
       List.filter Dispatch.is_publish
         (Dispatch.executeAction
            (Catalog.onActionAnnounced
               (fun _ => Some (CurrentWorker.toMqttAction clean_cache_info)) ∅
               "tinpot/actions/clean_cache" "{}")
            "clean_cache" (Some None) true "id-1" None None).2
       = [Dispatch.OpPublish "tinpot/actions/clean_cache/trigger" 1 false req].
Proof.
  split.
  - exact (proj1 (proj2 (proj2 (trigger_topic_actions_trigger [clean_cache_info]
                                  clean_cache_info (or_introl eq_refl))))).
  - apply (proj2 (proj2 (proj2 (trigger_topic_actions_trigger [clean_cache_info]
                                  clean_cache_info (or_introl eq_refl))))).
    + reflexivity.
    + discriminate.
    + reflexivity.
Defined.



(** C5 (code at a concrete input): in sync mode the current coordinator
    has no deadline: a result arriving 45 s after publication is answered
    with 200 at 45 s, and without a result the handler never answers; the
    earlier coordinator answers 504 at 30 s for the same input. *)
Lemma sync_execute_has_no_deadline :
  let r := mkResult "SUCCESS" (JObject [("files_deleted", JNumber 42)]) "" in
  (Dispatch.executeAction catalog1 "clean_cache" (Some (Some [("days", JNumber 5)]))
     true "id-1" None (Some (45, Some r))).1
  = Some (45, Dispatch.mkResponse 200
                (Dispatch.SyncResult "id-1" "clean_cache" "SUCCESS"
                   (Some (JObject [("files_deleted", JNumber 42)]))))
  /\ (Dispatch.executeAction catalog1 "clean_cache" (Some (Some [("days", JNumber 5)]))
        true "id-1" None None).1 = None
  /\ (Dispatch.executeAction_gin catalog1 "clean_cache" (Some (Some [("days", JNumber 5)]))
        true "id-1" None (Some (45, Some r))).1
     = Some (30, Dispatch.mkResponse 504 (Dispatch.Detail "Execution timed out")).
Proof. intros r. split; [|split]; vm_compute; reflexivity. Qed.

(** Events accepted by the channel of an execution: no [complete] event,
    or exactly one, last, with the channel closed after it. *)
Definition one_complete_last (s : Registry.exec_sim) : Prop :=
  Forall (fun e => Registry.is_complete e = false) (Registry.accepted s)
  \/ (exists pre c, Registry.accepted s = (pre ++ [c])%list
        /\ Forall (fun e => Registry.is_complete e = false) pre
        /\ Registry.is_complete c = true
        /\ Registry.closed (Registry.ch s) = true).

Lemma deliver_one_complete_last (execID : string) (s : Registry.exec_sim)
    (m : Registry.msg) :
  one_complete_last s -> one_complete_last (Registry.deliver execID s m).
Proof.
  intros Hs. unfold Registry.deliver.
  destruct (Registry.panicked s); [exact Hs|].
  destruct m as [now [entry|] | r].
  - destruct (Registry.log_sub s); [|exact Hs].
    unfold Registry.logCallback, Registry.try_send.
    destruct (Registry.closed (Registry.ch s)) eqn:Hc; [exact Hs|].
    destruct (Nat.ltb _ _); [|exact Hs].
    left. destruct Hs as [Hs | (pre & c & _ & _ & _ & Hcl)]; [|congruence].
    simpl. apply Forall_app. split; [exact Hs|]. constructor; [reflexivity|constructor].
  - destruct (Registry.log_sub s); exact Hs.
  - destruct (Registry.result_sub s); [|exact Hs].
    destruct (Response.handleResponse r) as [[err res]|]; [|exact Hs].
    unfold Registry.responseCallback, Registry.try_send, Registry.close.
    destruct (Registry.closed (Registry.ch s)) eqn:Hc; [exact Hs|].
    destruct Hs as [Hs | (pre & c & _ & _ & _ & Hcl)]; [|congruence].
    destruct (Nat.ltb _ _); simpl.
    + right. exists (Registry.accepted s). eexists.
      split; [reflexivity|]. split; [exact Hs|].
      split; [destruct (String.eqb err ""); reflexivity | reflexivity].
    + rewrite Hc. left. exact Hs.
Qed.

(** In every run of an execution, the channel accepts at most one
    [complete] event, and when it does it is the last accepted event and
    the channel is closed. (It may accept none: see C1.) *)
Lemma run_one_complete_last (execID : string) (ms : list Registry.msg) :
  one_complete_last (Registry.run execID Registry.start ms).
Proof.
  unfold Registry.run.
  assert (H0 : one_complete_last Registry.start) by (left; constructor).
  revert H0. generalize Registry.start.
  induction ms as [|m ms IH]; intros s Hs; simpl; [exact Hs|].
  apply IH. apply deliver_one_complete_last. exact Hs.
Qed.

(** C1 (code at a concrete input): after 1000 log messages fill the
    channel, the result message's [complete] event is dropped by the
    non-blocking send and the channel is closed with no [complete] event
    in it; a redelivered result message is then ignored. *)
Lemma complete_event_dropped_on_full_queue :
  let s1 := Registry.run "id-1" Registry.start
              (repeat sample_log 1000 ++ [sample_result])%list in
  let s2 := Registry.run "id-1" Registry.start
              (repeat sample_log 1000 ++ [sample_result; sample_result])%list in
  List.filter Registry.is_complete (Registry.accepted s1) = []
  /\ length (Registry.accepted s1) = 1000
  /\ Registry.closed (Registry.ch s1) = true
  /\ Registry.panicked s1 = false
  /\ s2 = s1.
Proof. intros s1 s2. vm_compute. repeat split; reflexivity. Qed.

(** C2 (code at a concrete input): with 1001 log messages before the
    result and the stream read afterwards, one log is dropped with one log
    line, the [complete] event is dropped silently, and the SSE stream is
    [connected], 1000 log events, then end of stream. *)
Lemma complete_event_lost_after_overflow :
  let s := Registry.run "id-1" Registry.start
             (repeat sample_log 1001 ++ [sample_result])%list in
  Registry.streamLogs (<["id-1" := Registry.ch s]> ∅) "id-1" true
  = Registry.Stream
      (Registry.SseConnected "id-1" :: repeat (Registry.SseEvent (log_event "line")) 1000)
      true
  /\ Registry.log_lines s = ["Dropped log for id-1 due to full buffer"].
Proof. intros s. vm_compute. split; reflexivity. Qed.

(* ------------------------------------------------------------------ *)
(** * Further properties of the catalog, dispatch, registry and worker *)

(** Tactic for equalities of catalogs built by [insert] and [delete],
    by cases on the looked-up name against the names [k1] and [k2]. *)
Ltac catalog_eq k1 k2 :=
  apply map_eq; intros ?j;
  destruct (decide (j = k1)); destruct (decide (j = k2)); subst;
  simplify_map_eq; try reflexivity; try congruence.

(** [ListActions] agrees with [GetAction]: a name is listed exactly when
    it can be triggered, and its entry carries that name and the
    announced description, group and parameters. *)
Theorem ListActions_matches_GetAction (actions : gmap string MqttAction)
    (name : string) :
  Listing.ListActions actions !! name
  = (fun act => Listing.mkActionInfo name (Description act) (Group act)
                  (Parameters act)) <$> Catalog.Lookup actions name.
Proof.
  unfold Listing.ListActions, Catalog.Lookup.
  rewrite map_lookup_imap. destruct (actions !! name); reflexivity.
Qed.

(** An empty (retained-clearing) announcement on
    [tinpot/actions/{name}] withdraws [name] whatever the catalog held:
    it is neither listed nor triggerable, and no other name changes. *)
Theorem catalog_withdrawal (unmarshal : string -> option MqttAction)
    (actions : gmap string MqttAction) (name : string)
    (Hname : has_char slash name = false) :
  let actions' :=
    Catalog.onActionAnnounced unmarshal actions ("tinpot/actions/" ++ name) "" in
  Catalog.Lookup actions' name = None
  /\ Listing.ListActions actions' !! name = None
  /\ (forall other, other <> name ->
        Catalog.Lookup actions' other = Catalog.Lookup actions other).
Proof.
  intros actions'.
  assert (Hdel : actions' = delete name actions).
  { unfold actions', Catalog.onActionAnnounced.
    rewrite split_action_topic by exact Hname. reflexivity. }
  unfold Catalog.Lookup. rewrite Hdel. split; [|split].
  - apply lookup_delete_eq.
  - unfold Listing.ListActions. rewrite map_lookup_imap, lookup_delete_eq.
    reflexivity.
  - intros other Hne. apply lookup_delete_ne. congruence.
Qed.

Lemma catalog_withdrawal_witness :
  has_char slash "clean_cache" = false
  /\ Catalog.Lookup
       (Catalog.onActionAnnounced (fun _ => None) catalog1
          ("tinpot/actions/" ++ "clean_cache") "") "clean_cache" = None.
Proof.
  split; [reflexivity|].
  exact (proj1 (catalog_withdrawal (fun _ => None) catalog1 "clean_cache"
                  eq_refl)).
Defined.

(** Redelivery of an announcement (as on every reconnect, the messages
    being retained) changes nothing: [onActionAnnounced] is idempotent
    for every topic and payload. *)
Theorem onActionAnnounced_idempotent (unmarshal : string -> option MqttAction)
    (actions : gmap string MqttAction) (topic payload : string) :
  Catalog.onActionAnnounced unmarshal
    (Catalog.onActionAnnounced unmarshal actions topic payload) topic payload
  = Catalog.onActionAnnounced unmarshal actions topic payload.
Proof.
  unfold Catalog.onActionAnnounced.
  destruct (split topic slash) as [|a [|b [|c [|d l]]]]; try reflexivity.
  destruct (String.eqb payload "").
  - catalog_eq c c.
  - destruct (unmarshal payload); [catalog_eq c c | reflexivity].
Qed.

(** Announcements addressing different action names commute, so the
    catalog does not depend on the order in which the broker delivers
    the retained messages of different topics. *)
Theorem onActionAnnounced_commute (unmarshal : string -> option MqttAction)
    (actions : gmap string MqttAction) (t1 p1 t2 p2 : string)
    (Hdiff : Catalog.topic_name t1 <> Catalog.topic_name t2
             \/ Catalog.topic_name t1 = None) :
  Catalog.onActionAnnounced unmarshal
    (Catalog.onActionAnnounced unmarshal actions t1 p1) t2 p2
  = Catalog.onActionAnnounced unmarshal
      (Catalog.onActionAnnounced unmarshal actions t2 p2) t1 p1.
Proof.
  unfold Catalog.topic_name, Catalog.onActionAnnounced in *.
  destruct (split t1 slash) as [|a1 [|b1 [|c1 [|d1 l1]]]];
    try reflexivity;
  destruct (split t2 slash) as [|a2 [|b2 [|c2 [|d2 l2]]]];
    try reflexivity.
  assert (Hc : c1 <> c2) by (destruct Hdiff; congruence).
  destruct (String.eqb p1 ""), (String.eqb p2 "");
    try destruct (unmarshal p1); try destruct (unmarshal p2);
    try reflexivity; catalog_eq c1 c2.
Qed.

Lemma onActionAnnounced_commute_witness :
  Catalog.onActionAnnounced (fun _ => Some clean_cache)
    (Catalog.onActionAnnounced (fun _ => Some clean_cache) ∅
       "tinpot/actions/a" "x") "tinpot/actions/b" ""
  = Catalog.onActionAnnounced (fun _ => Some clean_cache)
      (Catalog.onActionAnnounced (fun _ => Some clean_cache) ∅
         "tinpot/actions/b" "") "tinpot/actions/a" "x".
Proof.
  apply onActionAnnounced_commute. left. vm_compute. discriminate.
Defined.

(** The parameters [trigger] forwards after [executeAction] injected
    [_execution_id]: the client's, less every name starting with ['_']. *)
Lemma filter_injected_params (execID : string) (params0 : gomap) :
  List.filter (fun kv => negb (String.prefix "_" kv.1))
    (("_execution_id", JString execID)
       :: List.filter (fun kv => negb (String.eqb kv.1 "_execution_id")) params0)
  = List.filter (fun kv => negb (String.prefix "_" kv.1)) params0.
Proof.
  simpl. induction params0 as [|[k v] l IH]; [reflexivity|]. simpl.
  destruct (String.eqb k "_execution_id") eqn:Hk.
  - apply String.eqb_eq in Hk. subst. simpl. exact IH.
  - simpl. destruct (String.prefix "_" k); simpl; rewrite IH; reflexivity.
Qed.

(** Asynchronous [POST /api/actions/{name}/execute] for a known action:
    the reply is 200 [submitted] with the stream URL of the generated
    id, and the request published on the action's trigger topic (QoS 1,
    not retained) carries that id, its result and log topics, and the
    client's parameters less those whose name starts with ['_'] (so a
    client-supplied [_execution_id] never replaces the generated one). *)
Theorem executeAction_async_request (actions : gmap string MqttAction)
    (name : string) (ps : option gomap) (execID : string)
    (pub_err : option string) (first_result : Dispatch.arrival)
    (act : MqttAction) (Hact : Catalog.Lookup actions name = Some act) :
  let params0 := match ps with Some p => p | None => [] end in
  let req := Dispatch.mkRequest execID
               (List.filter (fun kv => negb (String.prefix "_" kv.1)) params0)
               (Dispatch.result_topic_of execID) (Dispatch.log_topic_of execID) in
  exists ops,
    Dispatch.executeAction actions name (Some ps) false execID pub_err first_result
    = (Some (0, Dispatch.mkResponse 200
                  (Dispatch.Submitted execID name "submitted"
                     ("/api/executions/" ++ execID ++ "/stream"))), ops)
    /\ In (Dispatch.OpPublish (TriggerTopic act) 1 false req) ops.
Proof.
  intros params0 req. unfold Dispatch.executeAction. rewrite Hact.
  unfold Dispatch.trigger. cbn [Dispatch.map_get fst].
  rewrite (proj2 (String.eqb_eq "_execution_id" "_execution_id") eq_refl).
  rewrite filter_injected_params. fold params0. fold req.
  destruct pub_err; eexists; split; try reflexivity;
    cbn [Dispatch.t_ops]; rewrite !in_app_iff; simpl; tauto.
Qed.

Lemma executeAction_async_request_witness :
  Catalog.Lookup catalog1 "clean_cache" = Some clean_cache
  /\ exists ops,
    Dispatch.executeAction catalog1 "clean_cache"
      (Some (Some [("days", JNumber 7); ("_execution_id", JString "mine")]))
      false "id-1" None None
    = (Some (0, Dispatch.mkResponse 200
                  (Dispatch.Submitted "id-1" "clean_cache" "submitted"
                     ("/api/executions/" ++ "id-1" ++ "/stream"))), ops)
    /\ In (Dispatch.OpPublish (TriggerTopic clean_cache) 1 false
            (Dispatch.mkRequest "id-1" [("days", JNumber 7)]
               (Dispatch.result_topic_of "id-1") (Dispatch.log_topic_of "id-1")))
          ops.
Proof.
  split; [reflexivity|].
  exact (executeAction_async_request catalog1 "clean_cache"
           (Some [("days", JNumber 7); ("_execution_id", JString "mine")])
           "id-1" None None clean_cache eq_refl).
Defined.

(** When the publication of the request fails, [sync_execute] of the
    current coordinator answers 200 with status [FAILURE] and a null
    result (the earlier gin coordinator answered 500), after [trigger]
    has unsubscribed the result and log topics. *)
Theorem sync_publish_failure (actions : gmap string MqttAction)
    (name : string) (ps : option gomap) (execID e : string)
    (first_result : Dispatch.arrival) (act : MqttAction)
    (Hact : Catalog.Lookup actions name = Some act) :
  fst (Dispatch.executeAction actions name (Some ps) true execID (Some e) first_result)
  = Some (0, Dispatch.mkResponse 200 (Dispatch.SyncResult execID name "FAILURE" None))
  /\ (exists pre,
        snd (Dispatch.executeAction actions name (Some ps) true execID (Some e)
               first_result)
        = (pre ++ [Dispatch.OpUnsubscribe [Dispatch.result_topic_of execID;
                                           Dispatch.log_topic_of execID];
                   Dispatch.OpWaitUnsubAck])%list)
  /\ fst (Dispatch.executeAction_gin actions name (Some ps) true execID (Some e)
            first_result)
     = Some (0, Dispatch.mkResponse 500
                  (Dispatch.Detail "Failed to publish execution request")).
Proof.
  unfold Catalog.Lookup in Hact.
  unfold Dispatch.executeAction, Dispatch.executeAction_gin, Catalog.Lookup.
  rewrite Hact. unfold Dispatch.trigger. cbn [Dispatch.map_get fst].
  rewrite (proj2 (String.eqb_eq "_execution_id" "_execution_id") eq_refl).
  cbn [Dispatch.t_publish_error Dispatch.t_ops fst snd app].
  split; [|split; [|reflexivity]].
  - change (String.eqb ("failed to publish request: " ++ e) "") with false.
    reflexivity.
  - eexists [_; _; _; _]. reflexivity.
Qed.

Lemma sync_publish_failure_witness :
  Catalog.Lookup catalog1 "clean_cache" = Some clean_cache
  /\ fst (Dispatch.executeAction catalog1 "clean_cache" (Some None) true "id-1"
            (Some "not connected") None)
     = Some (0, Dispatch.mkResponse 200
                  (Dispatch.SyncResult "id-1" "clean_cache" "FAILURE" None)).
Proof.
  split; [reflexivity|].
  exact (proj1 (sync_publish_failure catalog1 "clean_cache" None "id-1"
                  "not connected" None clean_cache eq_refl)).
Defined.

(** A result whose status is not [SUCCESS] but whose [error] is empty is
    reported by [sync_execute] of the current coordinator as [SUCCESS]
    with a null result (the status is derived from the error string
    alone); the earlier gin coordinator reported the worker's status and
    result. *)
Theorem sync_empty_error_reported_success (actions : gmap string MqttAction)
    (name : string) (ps : option gomap) (execID : string) (tm : nat)
    (r : MqttResultResponse) (act : MqttAction)
    (Hact : Catalog.Lookup actions name = Some act)
    (Hstatus : Status r <> "SUCCESS") (Herr : Error r = "") (Htm : tm < 30) :
  fst (Dispatch.executeAction actions name (Some ps) true execID None
         (Some (tm, Some r)))
  = Some (tm, Dispatch.mkResponse 200 (Dispatch.SyncResult execID name "SUCCESS" None))
  /\ fst (Dispatch.executeAction_gin actions name (Some ps) true execID None
            (Some (tm, Some r)))
     = Some (tm, Dispatch.mkResponse 200
                   (Dispatch.SyncResult execID name (Status r) (Some (Result r)))).
Proof.
  unfold Catalog.Lookup in Hact.
  unfold Dispatch.executeAction, Dispatch.executeAction_gin, Catalog.Lookup.
  rewrite Hact. unfold Response.handleResponse.
  apply String.eqb_neq in Hstatus. rewrite Hstatus, Herr.
  apply Nat.ltb_lt in Htm. rewrite Htm. split; reflexivity.
Qed.

Lemma sync_empty_error_reported_success_witness :
  fst (Dispatch.executeAction catalog1 "clean_cache" (Some None) true "id-1" None
         (Some (2, Some (mkResult "FAILURE" JNull ""))))
  = Some (2, Dispatch.mkResponse 200
               (Dispatch.SyncResult "id-1" "clean_cache" "SUCCESS" None)).
Proof.
  refine (proj1 (sync_empty_error_reported_success catalog1 "clean_cache" None
                   "id-1" 2 (mkResult "FAILURE" JNull "") clean_cache
                   eq_refl _ eq_refl _)).
  - discriminate.
  - lia.
Defined.

(** Once both subscriptions are gone, no message has a handler. *)
Lemma run_unsubscribed (execID : string) (s : Registry.exec_sim)
    (ms : list Registry.msg) :
  Registry.log_sub s = false -> Registry.result_sub s = false ->
  Registry.run execID s ms = s.
Proof.
  intros Hl Hr. unfold Registry.run.
  induction ms as [|m ms IH]; [reflexivity|]. simpl.
  assert (Hd : Registry.deliver execID s m = s).
  { unfold Registry.deliver. destruct (Registry.panicked s); [reflexivity|].
    destruct m; [rewrite Hl | rewrite Hr]; reflexivity. }
  rewrite Hd. exact IH.
Qed.

(** One delivery keeps the process alive, keeps a closed channel without
    subscriptions, and keeps the buffer within its capacity. *)
(** Simplification of the registry's records without unfolding the
    channel operations' arithmetic. *)
Ltac rsimpl :=
  cbn [Registry.closed Registry.ch Registry.buf Registry.log_sub
       Registry.result_sub Registry.panicked Registry.log_lines
       Registry.accepted Registry.close Registry.panic].

Lemma deliver_safe (execID : string) (s : Registry.exec_sim) (m : Registry.msg) :
  Registry.panicked s = false ->
  (Registry.closed (Registry.ch s) = true ->
     Registry.log_sub s = false /\ Registry.result_sub s = false) ->
  length (Registry.buf (Registry.ch s)) <= Registry.capacity ->
  let s' := Registry.deliver execID s m in
  Registry.panicked s' = false
  /\ (Registry.closed (Registry.ch s') = true ->
        Registry.log_sub s' = false /\ Registry.result_sub s' = false)
  /\ length (Registry.buf (Registry.ch s')) <= Registry.capacity.
Proof.
  destruct s as [[b cl] ls rs ll pn acc]; cbn [Registry.panicked Registry.ch
    Registry.closed Registry.buf Registry.log_sub Registry.result_sub].
  intros Hp Hcl Hb. subst pn. cbv zeta. unfold Registry.deliver. cbn [Registry.panicked].
  destruct m as [now [e|] | r].
  - destruct ls eqn:Hls; [|rsimpl; auto].
    destruct cl; [destruct (Hcl eq_refl); discriminate|].
    unfold Registry.logCallback, Registry.try_send. rsimpl.
    destruct (Nat.ltb (length b) Registry.capacity) eqn:Hlt; rsimpl.
    + apply Nat.ltb_lt in Hlt. rewrite length_app. simpl length. repeat split; try lia;
        discriminate.
    + repeat split; auto; discriminate.
  - destruct ls; rsimpl; auto.
  - destruct rs eqn:Hrs; [|rsimpl; auto].
    destruct cl; [destruct (Hcl eq_refl); discriminate|].
    destruct (Response.handleResponse r) as [[err res]|]; rsimpl; [|auto].
    unfold Registry.responseCallback, Registry.try_send. rsimpl.
    destruct (Nat.ltb (length b) Registry.capacity) eqn:Hlt; rsimpl.
    + apply Nat.ltb_lt in Hlt. rewrite length_app. simpl length. repeat split; lia.
    + repeat split; lia.
Qed.

Lemma run_safe (execID : string) (ms : list Registry.msg) :
  let s := Registry.run execID Registry.start ms in
  Registry.panicked s = false
  /\ (Registry.closed (Registry.ch s) = true ->
        Registry.log_sub s = false /\ Registry.result_sub s = false)
  /\ length (Registry.buf (Registry.ch s)) <= Registry.capacity.
Proof.
  unfold Registry.run.
  assert (H0 : Registry.panicked Registry.start = false
    /\ (Registry.closed (Registry.ch Registry.start) = true ->
          Registry.log_sub Registry.start = false
          /\ Registry.result_sub Registry.start = false)
    /\ length (Registry.buf (Registry.ch Registry.start)) <= Registry.capacity).
  { cbn. repeat split; try lia; discriminate. }
  revert H0. generalize Registry.start.
  induction ms as [|m ms IH]; intros s [Hp [Hc Hb]]; [exact (conj Hp (conj Hc Hb))|].
  apply IH. apply deliver_safe; assumption.
Qed.

(** Whatever the broker delivers, one message at a time, the handlers
    never send on or close a closed channel: the coordinator does not
    panic. *)
Theorem execution_never_panics (execID : string) (ms : list Registry.msg) :
  Registry.panicked (Registry.run execID Registry.start ms) = false.
Proof. exact (proj1 (run_safe execID ms)). Qed.

(** A log message that arrives while the channel already holds its 1000
    buffered events is dropped: the channel and the accepted events are
    unchanged, the coordinator logs ["Dropped log for {id} due to full
    buffer"], and it neither blocks nor panics. *)
Theorem log_dropped_when_full (execID now : string) (s : Registry.exec_sim)
    (e : MqttLogEntry)
    (Hsub : Registry.log_sub s = true) (Hp : Registry.panicked s = false)
    (Hopen : Registry.closed (Registry.ch s) = false)
    (Hfull : Registry.capacity <= length (Registry.buf (Registry.ch s))) :
  let s' := Registry.deliver execID s (Registry.LogMsg now (Some e)) in
  Registry.ch s' = Registry.ch s
  /\ Registry.accepted s' = Registry.accepted s
  /\ Registry.log_lines s'
     = (Registry.log_lines s
          ++ [("Dropped log for " ++ execID ++ " due to full buffer")%string])%list
  /\ Registry.panicked s' = false
  /\ Registry.log_sub s' = true
  /\ Registry.result_sub s' = Registry.result_sub s.
Proof.
  destruct s as [[b cl] ls rs ll pn acc].
  cbn [Registry.ch Registry.closed Registry.buf Registry.log_sub Registry.panicked]
    in Hsub, Hp, Hopen, Hfull.
  subst ls pn cl. apply Nat.ltb_ge in Hfull.
  cbv zeta. unfold Registry.deliver, Registry.logCallback, Registry.try_send. rsimpl.
  rewrite Hfull. rsimpl. repeat split; reflexivity.
Qed.

Lemma log_dropped_when_full_witness :
  let s := Registry.mkSim (Registry.mkChan (repeat (log_event "x") 1000) false)
             true true [] false [] in
  Registry.ch (Registry.deliver "id-1" s sample_log) = Registry.ch s.
Proof.
  exact (proj1 (log_dropped_when_full "id-1" "2026-01-01T00:00:00Z"
          (Registry.mkSim (Registry.mkChan (repeat (log_event "x") 1000) false)
             true true [] false [])
          (mkLogEntry "2026-01-01T00:00:00Z" "INFO" "line")
          eq_refl eq_refl eq_refl
          (eq_ind_r (fun n => Registry.capacity <= n) (le_n 1000)
             (repeat_length (log_event "x") 1000)))).
Defined.

(** Log messages that fit in the buffer are queued in order, each
    re-stamped with the coordinator's delivery time. *)
Lemma run_logs_fit (execID : string) (entries : list (string * MqttLogEntry))
    (s : Registry.exec_sim) :
  Registry.log_sub s = true -> Registry.panicked s = false ->
  Registry.closed (Registry.ch s) = false ->
  length (Registry.buf (Registry.ch s)) + length entries <= Registry.capacity ->
  let evs := map (fun p => Registry.mkEvent "log"
                   (Registry.LogData (mkLogEntry p.1 (Level p.2) (Message p.2))))
                 entries in
  Registry.run execID s (map (fun p => Registry.LogMsg p.1 (Some p.2)) entries)
  = Registry.mkSim (Registry.mkChan (Registry.buf (Registry.ch s) ++ evs) false)
      true (Registry.result_sub s) (Registry.log_lines s) false
      (Registry.accepted s ++ evs).
Proof.
  revert s. induction entries as [|[now e] entries IH]; intros s Hl Hp Hc Hb evs.
  - destruct s as [[b cl] ls rs ll pn acc]; cbn in *. subst.
    rewrite !app_nil_r. reflexivity.
  - destruct s as [[b cl] ls rs ll pn acc]; cbn in Hl, Hp, Hc, Hb |- *. subst.
    unfold Registry.run in IH |- *. cbn [fold_left].
    assert (Hd : Registry.deliver execID
                   (Registry.mkSim (Registry.mkChan b false) true rs ll false acc)
                   (Registry.LogMsg now (Some e))
                 = Registry.mkSim
                     (Registry.mkChan (b ++ [Registry.mkEvent "log"
                        (Registry.LogData (mkLogEntry now (Level e) (Message e)))]) false)
                     true rs ll false
                     (acc ++ [Registry.mkEvent "log"
                        (Registry.LogData (mkLogEntry now (Level e) (Message e)))])).
    { unfold Registry.deliver, Registry.logCallback, Registry.try_send. rsimpl.
      assert (Hlt : Nat.ltb (length b) Registry.capacity = true)
        by (apply Nat.ltb_lt; lia).
      rewrite Hlt. reflexivity. }
    rewrite Hd, IH; cbn; try reflexivity.
    + unfold evs. cbn. rewrite <- !app_assoc. reflexivity.
    + rewrite length_app. cbn. lia.
Qed.

(** With fewer than 1000 log messages before a decodable result, the SSE
    stream of the execution shows [connected], every log in delivery
    order (with the coordinator's time stamp), then the [complete] event
    built from the result, and then ends. *)
Theorem stream_all_logs_then_complete (execID : string)
    (entries : list (string * MqttLogEntry)) (r : MqttResultResponse)
    (executions : gmap string Registry.chan)
    (Hlen : length entries < Registry.capacity) :
  let s := Registry.run execID Registry.start
             (map (fun p => Registry.LogMsg p.1 (Some p.2)) entries
              ++ [Registry.ResultMsg (Some r)])%list in
  exists err res ev,
    Response.handleResponse (Some r) = Some (err, res)
    /\ Registry.Type_ ev = "complete"
    /\ Registry.Data ev
       = (if String.eqb err "" then Registry.CompleteData "SUCCESS" true (Some res) None
          else Registry.CompleteData "FAILURE" false None (Some err))
    /\ Registry.streamLogs (<[execID := Registry.ch s]> executions) execID true
       = Registry.Stream
           (Registry.SseConnected execID
              :: map Registry.SseEvent
                   (map (fun p => Registry.mkEvent "log"
                          (Registry.LogData (mkLogEntry p.1 (Level p.2) (Message p.2))))
                        entries
                    ++ [ev]))
           true.
Proof.
  intros s.
  assert (Hh : exists err res, Response.handleResponse (Some r) = Some (err, res)).
  { unfold Response.handleResponse. destruct (String.eqb (Status r) "SUCCESS");
      eauto. }
  destruct Hh as [err [res Hh]].
  set (evs := map (fun p => Registry.mkEvent "log"
                (Registry.LogData (mkLogEntry p.1 (Level p.2) (Message p.2)))) entries).
  set (ev := Registry.mkEvent "complete"
               (if String.eqb err "" then Registry.CompleteData "SUCCESS" true (Some res) None
                else Registry.CompleteData "FAILURE" false None (Some err))).
  exists err, res, ev. split; [exact Hh|]. split; [reflexivity|]. split; [reflexivity|].
  assert (Hs : s = Registry.deliver execID
                     (Registry.mkSim (Registry.mkChan evs false) true true [] false evs)
                     (Registry.ResultMsg (Some r))).
  { unfold s, Registry.run. rewrite fold_left_app.
    fold (Registry.run execID Registry.start
            (map (fun p => Registry.LogMsg p.1 (Some p.2)) entries)).
    rewrite run_logs_fit; cbn; try reflexivity; lia. }
  assert (Hlt : Nat.ltb (length evs) Registry.capacity = true).
  { apply Nat.ltb_lt. unfold evs. rewrite length_map. exact Hlen. }
  assert (Hch : Registry.ch s = Registry.mkChan (evs ++ [ev]) true).
  { rewrite Hs. unfold Registry.deliver. rsimpl. rewrite Hh.
    unfold Registry.responseCallback, Registry.try_send. rsimpl. rewrite Hlt.
    unfold ev. destruct (String.eqb err ""); reflexivity. }
  unfold Registry.streamLogs, Registry.getExecution.
  rewrite lookup_insert_eq, Hch. cbn [Registry.buf Registry.closed].
  rewrite drain_lines, map_app. reflexivity.
Qed.

Lemma stream_all_logs_then_complete_witness :
  exists err res ev,
    Response.handleResponse (Some (mkResult "SUCCESS" (JNumber 1) "")) = Some (err, res)
    /\ Registry.Type_ ev = "complete"
    /\ Registry.Data ev
       = (if String.eqb err "" then Registry.CompleteData "SUCCESS" true (Some res) None
          else Registry.CompleteData "FAILURE" false None (Some err))
    /\ Registry.streamLogs
         (<["id-1" := Registry.ch (Registry.run "id-1" Registry.start
              (map (fun p => Registry.LogMsg p.1 (Some p.2))
                 [("t0", mkLogEntry "w0" "INFO" "line")]
               ++ [Registry.ResultMsg (Some (mkResult "SUCCESS" (JNumber 1) ""))])%list)]> ∅)
         "id-1" true
       = Registry.Stream
           (Registry.SseConnected "id-1"
              :: map Registry.SseEvent
                   (map (fun p => Registry.mkEvent "log"
                          (Registry.LogData (mkLogEntry p.1 (Level p.2) (Message p.2))))
                        [("t0", mkLogEntry "w0" "INFO" "line")]
                    ++ [ev]))
           true.
Proof.
  apply (stream_all_logs_then_complete "id-1" [("t0", mkLogEntry "w0" "INFO" "line")]
           (mkResult "SUCCESS" (JNumber 1) "") ∅).
  unfold Registry.capacity. simpl. lia.
Defined.

(** A log entry the coordinator accepts is queued as a [log] event
    carrying the coordinator's delivery time [now] with the entry's level
    and message; the worker's [timestamp] is not forwarded: any other
    timestamp gives the same state. *)
Theorem log_event_restamped (execID now : string) (s : Registry.exec_sim)
    (e : MqttLogEntry)
    (Hsub : Registry.log_sub s = true) (Hp : Registry.panicked s = false)
    (Hopen : Registry.closed (Registry.ch s) = false)
    (Hroom : length (Registry.buf (Registry.ch s)) < Registry.capacity) :
  let ev := Registry.mkEvent "log" (Registry.LogData (mkLogEntry now (Level e) (Message e))) in
  let s' := Registry.deliver execID s (Registry.LogMsg now (Some e)) in
  Registry.buf (Registry.ch s') = (Registry.buf (Registry.ch s) ++ [ev])%list
  /\ Registry.accepted s' = (Registry.accepted s ++ [ev])%list
  /\ Registry.log_lines s' = Registry.log_lines s
  /\ (forall ts : string,
        Registry.deliver execID s
          (Registry.LogMsg now (Some (mkLogEntry ts (Level e) (Message e)))) = s').
Proof.
  cbv zeta. split; [|split; [|split]].
  3: { destruct s as [[b cl] ls rs ll pn acc].
       cbn [Registry.ch Registry.closed Registry.buf Registry.log_sub Registry.panicked]
         in Hsub, Hp, Hopen, Hroom.
       subst ls pn cl. apply Nat.ltb_lt in Hroom.
       unfold Registry.deliver, Registry.logCallback, Registry.try_send. rsimpl.
       rewrite Hroom. reflexivity. }
  3: { intros ts. reflexivity. }
  all: destruct s as [[b cl] ls rs ll pn acc];
       cbn [Registry.ch Registry.closed Registry.buf Registry.log_sub Registry.panicked]
         in Hsub, Hp, Hopen, Hroom;
       subst ls pn cl; apply Nat.ltb_lt in Hroom;
       unfold Registry.deliver, Registry.logCallback, Registry.try_send; rsimpl;
       rewrite Hroom; reflexivity.
Qed.

Lemma log_event_restamped_witness :
  Registry.accepted (Registry.deliver "id-1" Registry.start
    (Registry.LogMsg "t1" (Some (mkLogEntry "1970-01-01T00:00:00Z" "INFO" "x"))))
  = [Registry.mkEvent "log" (Registry.LogData (mkLogEntry "t1" "INFO" "x"))].
Proof.
  exact (proj1 (proj2 (log_event_restamped "id-1" "t1" Registry.start
          (mkLogEntry "1970-01-01T00:00:00Z" "INFO" "x") eq_refl eq_refl eq_refl
          (proj1 (Nat.ltb_lt 0 Registry.capacity) eq_refl)))).
Defined.

(** The first result message handled (decodable or not) removes both
    subscriptions; later log or result messages, such as the retained
    result redelivered, then change nothing. *)
Theorem result_handled_then_inert (execID : string) (s : Registry.exec_sim)
    (r : option MqttResultResponse) (ms : list Registry.msg)
    (Hsub : Registry.result_sub s = true) (Hp : Registry.panicked s = false) :
  let s1 := Registry.deliver execID s (Registry.ResultMsg r) in
  Registry.log_sub s1 = false /\ Registry.result_sub s1 = false
  /\ Registry.run execID s1 ms = s1.
Proof.
  cbv zeta.
  assert (Hl : Registry.log_sub (Registry.deliver execID s (Registry.ResultMsg r)) = false
               /\ Registry.result_sub (Registry.deliver execID s (Registry.ResultMsg r))
                  = false).
  { unfold Registry.deliver. rewrite Hp, Hsub. split; reflexivity. }
  destruct Hl as [Hl Hr]. split; [exact Hl|]. split; [exact Hr|].
  apply run_unsubscribed; assumption.
Qed.

Lemma result_handled_then_inert_witness :
  Registry.run "id-1" (Registry.deliver "id-1" Registry.start sample_result)
    [sample_log; sample_result]
  = Registry.deliver "id-1" Registry.start sample_result.
Proof.
  refine (proj2 (proj2 (result_handled_then_inert "id-1" Registry.start _
                          [sample_log; sample_result] eq_refl eq_refl))).
Defined.

(** Log-only deliveries keep the result subscription, an open channel,
    a live process and the absence of any [complete] event. *)
Lemma run_logs_invariant (execID : string) (s : Registry.exec_sim)
    (ms : list Registry.msg) :
  Forall (fun m => exists now e, m = Registry.LogMsg now e) ms ->
  Registry.result_sub s = true -> Registry.panicked s = false ->
  Registry.closed (Registry.ch s) = false ->
  List.filter Registry.is_complete (Registry.accepted s) = [] ->
  let s' := Registry.run execID s ms in
  Registry.result_sub s' = true /\ Registry.panicked s' = false
  /\ Registry.closed (Registry.ch s') = false
  /\ List.filter Registry.is_complete (Registry.accepted s') = [].
Proof.
  unfold Registry.run. revert s.
  induction ms as [|m ms IH]; intros s Hall Hr Hp Hc Hf; [repeat split; assumption|].
  inversion Hall as [|? ? [now [e Hm]] Hall']; subst m. cbn [fold_left].
  apply IH; [exact Hall'| | | |];
    destruct s as [[b cl] ls rs ll pn acc];
    cbn [Registry.ch Registry.closed Registry.result_sub Registry.panicked Registry.accepted]
      in Hr, Hp, Hc, Hf; subst rs pn cl;
    unfold Registry.deliver; rsimpl;
    (destruct ls; [|rsimpl; first [reflexivity | exact Hf]]);
    (destruct e as [entry|]; [|rsimpl; first [reflexivity | exact Hf]]);
    unfold Registry.logCallback, Registry.try_send; rsimpl;
    (destruct (Nat.ltb (length b) Registry.capacity); rsimpl;
       try reflexivity; try exact Hf).
  rewrite List.filter_app, Hf. reflexivity.
Qed.

(** A result payload that does not decode is dropped by [handleResponse]
    without calling back, yet unsubscribes: [sync_execute] never answers
    although the deferred [closer.Close()] still unsubscribes both
    topics; and an asynchronous execution that receives it after any
    number of log messages loses both subscriptions with its channel
    left as it was, open and without a [complete] event, so its stream
    shows [connected] and the buffered logs and then stays open,
    whatever arrives later. *)
Theorem undecodable_result_never_completes (actions : gmap string MqttAction)
    (name : string) (ps : option gomap) (execID : string) (tm : nat)
    (act : MqttAction) (ms1 ms2 : list Registry.msg)
    (executions : gmap string Registry.chan)
    (Hact : Catalog.Lookup actions name = Some act)
    (Hlogs : Forall (fun m => exists now e, m = Registry.LogMsg now e) ms1) :
  fst (Dispatch.executeAction actions name (Some ps) true execID None (Some (tm, None)))
  = None
  /\ (exists pre,
        snd (Dispatch.executeAction actions name (Some ps) true execID None
               (Some (tm, None)))
        = (pre ++ [Dispatch.OpUnsubscribe [Dispatch.result_topic_of execID;
                                          Dispatch.log_topic_of execID];
                  Dispatch.OpWaitUnsubAck])%list)
  /\ let s1 := Registry.run execID Registry.start ms1 in
     let s := Registry.run execID s1 (Registry.ResultMsg None :: ms2) in
     Registry.log_sub s = false /\ Registry.result_sub s = false
     /\ Registry.ch s = Registry.ch s1
     /\ Registry.accepted s = Registry.accepted s1
     /\ List.filter Registry.is_complete (Registry.accepted s) = []
     /\ Registry.streamLogs (<[execID := Registry.ch s]> executions) execID true
        = Registry.Stream (Registry.SseConnected execID
                             :: map Registry.SseEvent (Registry.buf (Registry.ch s))) false.
Proof.
  split; [|split].
  - unfold Dispatch.executeAction. rewrite Hact. reflexivity.
  - unfold Dispatch.executeAction. rewrite Hact. eexists. reflexivity.
  - cbv zeta.
    destruct (run_logs_invariant execID Registry.start ms1 Hlogs eq_refl eq_refl
                eq_refl eq_refl) as [Hr [Hp [Hc Hf]]].
    revert Hr Hp Hc Hf. generalize (Registry.run execID Registry.start ms1).
    intros s1 Hr Hp Hc Hf.
    unfold Registry.run. cbn [fold_left].
    fold (Registry.run execID (Registry.deliver execID s1 (Registry.ResultMsg None)) ms2).
    assert (Hd : Registry.deliver execID s1 (Registry.ResultMsg None)
                 = Registry.mkSim (Registry.ch s1) false false (Registry.log_lines s1)
                     false (Registry.accepted s1)).
    { unfold Registry.deliver. rewrite Hp, Hr. cbn. rewrite Hp. reflexivity. }
    rewrite Hd, run_unsubscribed by reflexivity. rsimpl.
    repeat split; try reflexivity; [exact Hf|].
    unfold Registry.streamLogs, Registry.getExecution.
    rewrite lookup_insert_eq, drain_lines, Hc. reflexivity.
Qed.

Lemma undecodable_result_never_completes_witness :
  fst (Dispatch.executeAction catalog1 "clean_cache" (Some None) true "id-1" None
         (Some (1, None))) = None.
Proof.
  exact (proj1 (undecodable_result_never_completes catalog1 "clean_cache" None
                  "id-1" 1 clean_cache [sample_log] [] ∅ eq_refl
                  ltac:(constructor; [do 2 eexists; reflexivity | constructor]))).
Defined.

(** [registerExecution] gives the id a fresh, empty and open channel
    (replacing any earlier state for it): its stream shows [connected]
    and waits, and its status reads [PENDING]; other ids are unaffected. *)
Theorem registerExecution_fresh (executions : gmap string Registry.chan)
    (id : string) :
  Registry.streamLogs (Registry.registerExecution executions id) id true
  = Registry.Stream [Registry.SseConnected id] false
  /\ Status.getStatus (Registry.registerExecution executions id) id
     = (200, Status.mkStatus id "PENDING" false)
  /\ (forall other, other <> id ->
        Registry.getExecution (Registry.registerExecution executions id) other
        = Registry.getExecution executions other).
Proof.
  unfold Registry.streamLogs, Status.getStatus, Registry.getExecution,
    Registry.registerExecution.
  rewrite lookup_insert_eq. split; [reflexivity|]. split; [reflexivity|].
  intros other Hne. apply lookup_insert_ne. congruence.
Qed.

(** [removeExecution] forgets the id: its stream answers 404 and its
    status [UNKNOWN]; other ids are unaffected. *)
Theorem removeExecution_forgets (executions : gmap string Registry.chan)
    (id : string) :
  Registry.streamLogs (Registry.removeExecution executions id) id true
  = Registry.StreamError 404 "Execution not found"
  /\ Status.getStatus (Registry.removeExecution executions id) id
     = (200, Status.mkStatus id "UNKNOWN" false)
  /\ (forall other, other <> id ->
        Registry.getExecution (Registry.removeExecution executions id) other
        = Registry.getExecution executions other).
Proof.
  unfold Registry.streamLogs, Status.getStatus, Registry.getExecution,
    Registry.removeExecution.
  rewrite lookup_delete_eq. split; [reflexivity|]. split; [reflexivity|].
  intros other Hne. apply lookup_delete_ne. congruence.
Qed.

(** [getStatus] never reports completion: [ready] is always [false],
    and an execution whose channel is closed (its stream ends) still
    reads [PENDING]. *)
Theorem getStatus_never_ready (executions : gmap string Registry.chan)
    (id : string) (ms : list Registry.msg)
    (Hdone : Registry.closed (Registry.ch (Registry.run id Registry.start ms)) = true) :
  Status.ready (snd (Status.getStatus executions id)) = false
  /\ Status.getStatus (<[id := Registry.ch (Registry.run id Registry.start ms)]> executions) id
     = (200, Status.mkStatus id "PENDING" false)
  /\ exists lines,
       Registry.streamLogs
         (<[id := Registry.ch (Registry.run id Registry.start ms)]> executions) id true
       = Registry.Stream lines true.
Proof.
  split; [reflexivity|].
  unfold Status.getStatus, Registry.streamLogs, Registry.getExecution.
  rewrite lookup_insert_eq. split; [reflexivity|].
  rewrite drain_lines, Hdone. eexists. reflexivity.
Qed.

Lemma getStatus_never_ready_witness :
  Status.getStatus
    (<["id-1" := Registry.ch (Registry.run "id-1" Registry.start [sample_result])]> ∅)
    "id-1"
  = (200, Status.mkStatus "id-1" "PENDING" false).
Proof.
  refine (proj1 (proj2 (getStatus_never_ready ∅ "id-1" [sample_result] _))).
  vm_compute. reflexivity.
Defined.

(** When the request cannot be published in asynchronous mode, the HTTP
    reply has already said [submitted]; the stream then shows
    [connected], a [FAILURE] [complete] event carrying
    ["failed to publish request: ..."], and ends. *)
Theorem async_publish_failure_stream (act : MqttAction) (params : gomap)
    (execID e : string) (executions : gmap string Registry.chan) :
  let t := Dispatch.trigger act params true execID (Some e) in
  Dispatch.t_publish_error t = Some ("failed to publish request: " ++ e)
  /\ Registry.streamLogs
       (<[execID := Registry.ch (Registry.responseCallback
                                   ("failed to publish request: " ++ e) None
                                   Registry.start)]> executions) execID true
     = Registry.Stream
         [Registry.SseConnected execID;
          Registry.SseEvent (Registry.mkEvent "complete"
            (Registry.CompleteData "FAILURE" false None
               (Some ("failed to publish request: " ++ e))))]
         true.
Proof.
  split; [reflexivity|].
  unfold Registry.streamLogs, Registry.getExecution. rewrite lookup_insert_eq.
  unfold Registry.responseCallback.
  change (String.eqb ("failed to publish request: " ++ e) "") with false.
  reflexivity.
Qed.

(** An action returning a JSON value that is not an object: the worker
    that publishes over MQTT sends it as [result], which [handleResponse]
    wraps as [{"value": ...}]; [pyActionInfo.trigger] decodes it into a
    [map[string]interface{}], which fails, and reports a [nil] result. *)
Theorem non_object_return_paths (v : value)
    (Hv : forall kvs, v <> JObject kvs) :
  WorkerExec.trigger_response true true
    (WorkerExec.CallReturned (WorkerExec.PyRetJson v)) = ("", None)
  /\ Response.handleResponse
       (Some (WorkerExec.result_response true
                (WorkerExec.CallReturned (WorkerExec.PyRetJson v))))
     = Some ("", Some [("value", v)]).
Proof.
  destruct v; try (exfalso; eapply Hv; reflexivity); split; reflexivity.
Qed.

Lemma non_object_return_paths_witness :
  WorkerExec.trigger_response true true
    (WorkerExec.CallReturned (WorkerExec.PyRetJson (JNumber 42))) = ("", None).
Proof.
  refine (proj1 (non_object_return_paths (JNumber 42) _)). discriminate.
Defined.

(** An action that raises is reported the same way by both workers:
    error ["Exception occurred"] and no result; the coordinator's
    stream then ends with a [FAILURE] [complete] event carrying it. *)
Theorem exception_reported_as_failure (execID : string) (json_ok : bool) :
  WorkerExec.trigger_response true json_ok WorkerExec.CallRaised
    = ("Exception occurred", None)
  /\ Response.handleResponse
       (Some (WorkerExec.result_response json_ok WorkerExec.CallRaised))
     = Some ("Exception occurred", None)
  /\ Registry.accepted
       (Registry.deliver execID Registry.start
          (Registry.ResultMsg (Some (WorkerExec.result_response json_ok
                                       WorkerExec.CallRaised))))
     = [Registry.mkEvent "complete"
          (Registry.CompleteData "FAILURE" false None (Some "Exception occurred"))].
Proof. repeat split; reflexivity. Qed.

(** A call that returns [NULL] without a Python exception set is
    published by the worker with status [FAILURE] but an empty error;
    the coordinator derives the outcome from the error alone and reports
    a successful completion with a [nil] result. *)
Theorem null_without_exception_reported_success (execID : string)
    (json_ok : bool) :
  Status (WorkerExec.result_response json_ok WorkerExec.CallNullNoError) = "FAILURE"
  /\ Registry.accepted
       (Registry.deliver execID Registry.start
          (Registry.ResultMsg (Some (WorkerExec.result_response json_ok
                                       WorkerExec.CallNullNoError))))
     = [Registry.mkEvent "complete"
          (Registry.CompleteData "SUCCESS" true (Some None) None)].
Proof. split; reflexivity. Qed.

(** The asynchronous request and the worker meet: the coordinator
    subscribes, before publishing, to the result topic (QoS 1) and the
    log topic (QoS 0) named in the request; a worker that has the action
    publishes its single result, retained at QoS 1, on that result topic;
    and no keyword argument it builds has a name starting with ['_']. *)
Theorem worker_result_on_subscribed_topic (format_float : Q -> string)
    (actions : gmap string MqttAction) (name : string) (ps : option gomap)
    (execID : string) (pub_err : option string) (first_result : Dispatch.arrival)
    (act : MqttAction) (json_ok : bool)
    (call : list (string * Worker.pyobject) -> WorkerExec.call_outcome)
    (Hact : Catalog.Lookup actions name = Some act) :
  exists req resp pre post,
    Dispatch.executeAction actions name (Some ps) false execID pub_err first_result
    = (resp, pre ++ Dispatch.OpPublish (TriggerTopic act) 1 false req :: post)%list
    /\ In (Dispatch.OpSubscribe (Dispatch.ResultTopic req) 1) pre
    /\ In (Dispatch.OpSubscribe (Dispatch.LogTopic req) 0) pre
    /\ (exists r, WorkerExec.executeAction format_float true req json_ok call
                  = Some (Dispatch.ResultTopic req, 1, true, r))
    /\ Forall (fun kv => String.prefix "_" kv.1 = false)
         (Worker.build_kwargs format_float (Dispatch.ReqParameters req)).
Proof.
  set (params0 := match ps with Some p => p | None => [] end).
  set (req := Dispatch.mkRequest execID
                (List.filter (fun kv => negb (String.prefix "_" kv.1)) params0)
                (Dispatch.result_topic_of execID) (Dispatch.log_topic_of execID)).
  exists req.
  unfold Dispatch.executeAction. rewrite Hact.
  unfold Dispatch.trigger. cbn [Dispatch.map_get fst].
  rewrite (proj2 (String.eqb_eq "_execution_id" "_execution_id") eq_refl).
  rewrite filter_injected_params. fold params0. fold req.
  assert (Hk : Forall (fun kv => String.prefix "_" kv.1 = false)
                 (Worker.build_kwargs format_float (Dispatch.ReqParameters req))).
  { apply List.Forall_forall. intros [k v] Hin. cbn [fst].
    apply (in_map fst) in Hin. cbn [fst] in Hin.
    destruct (build_kwargs_fold_keys (Worker.to_python format_float)
                (Dispatch.ReqParameters req) [] (List.NoDup_nil _)) as [_ Hkeys].
    unfold Worker.build_kwargs in Hin. apply Hkeys in Hin as [[]|Hin].
    apply in_map_iff in Hin as [[k0 v0] [Hk0 Hin]]. cbn [fst] in Hk0. subst k.
    cbn [Dispatch.ReqParameters req] in Hin. apply filter_In in Hin as [_ Hp].
    cbn [fst] in Hp. destruct (String.prefix "_" (Worker.c_string k0)) eqn:E; [|reflexivity].
    apply c_string_prefix_underscore in E. rewrite E in Hp. discriminate. }
  destruct pub_err as [e|]; eexists;
    [exists [Dispatch.OpSubscribe (Dispatch.log_topic_of execID) 0;
             Dispatch.OpSubscribe (Dispatch.result_topic_of execID) 1;
             Dispatch.OpWaitSubAck (Dispatch.result_topic_of execID)]
    |exists [Dispatch.OpSubscribe (Dispatch.log_topic_of execID) 0;
             Dispatch.OpSubscribe (Dispatch.result_topic_of execID) 1;
             Dispatch.OpWaitSubAck (Dispatch.result_topic_of execID)]];
    eexists; (split; [reflexivity|]); cbn [Dispatch.ResultTopic Dispatch.LogTopic req];
    (split; [simpl; tauto|]); (split; [simpl; tauto|]);
    (split; [eexists; reflexivity|exact Hk]).
Qed.

Lemma worker_result_on_subscribed_topic_witness :
  exists req resp pre post,
    Dispatch.executeAction catalog1 "clean_cache" (Some None) false "id-1" None None
    = (resp, pre ++ Dispatch.OpPublish (TriggerTopic clean_cache) 1 false req :: post)%list
    /\ In (Dispatch.OpSubscribe (Dispatch.ResultTopic req) 1) pre
    /\ In (Dispatch.OpSubscribe (Dispatch.LogTopic req) 0) pre
    /\ (exists r, WorkerExec.executeAction (fun _ => "") true req true
                    (fun _ => WorkerExec.CallNullNoError)
                  = Some (Dispatch.ResultTopic req, 1, true, r))
    /\ Forall (fun kv => String.prefix "_" kv.1 = false)
         (Worker.build_kwargs (fun _ => "") (Dispatch.ReqParameters req)).
Proof.
  exact (worker_result_on_subscribed_topic (fun _ => "") catalog1 "clean_cache" None
           "id-1" None None clean_cache true (fun _ => WorkerExec.CallNullNoError)
           eq_refl).
Defined.

(** An integer-valued number outside the 64-bit [int] range is passed to
    the action as a Python [float]: [int(val)] gives the minimum [int],
    which does not convert back to [val]. *)
Theorem to_python_large_integer_is_float (format_float : Q -> string)
    (q : Q) (z : Z) (Hq : q == inject_Z z)
    (Hz : (z < - 2 ^ 63 \/ 2 ^ 63 <= z)%Z) :
  Worker.to_python format_float (JNumber q) = Worker.PyFloat q.
Proof.
  unfold Worker.to_python, Worker.int_roundtrips, Worker.go_int_of_float64.
  rewrite (Qtrunc_int q z Hq).
  assert (Hr : ((- 2 ^ 63 <=? z)%Z && (z <? 2 ^ 63)%Z) = false).
  { destruct Hz as [Hz|Hz].
    - apply andb_false_iff. left. apply Z.leb_gt. exact Hz.
    - apply andb_false_iff. right. apply Z.ltb_ge. exact Hz. }
  rewrite Hr.
  destruct (Qeq_bool (inject_Z (- 2 ^ 63)) q) eqn:E; [exfalso|reflexivity].
  apply Qeq_bool_iff in E. pose proof (Qeq_trans _ _ _ E Hq) as E'.
  apply (proj1 (inject_Z_injective _ _)) in E'. rewrite <- E' in Hz.
  destruct Hz as [Hz|Hz]; vm_compute in Hz; [discriminate Hz | exact (Hz eq_refl)].
Qed.

Lemma to_python_large_integer_is_float_witness :
  Worker.to_python (fun _ => "") (JNumber (inject_Z (2 ^ 63)))
  = Worker.PyFloat (inject_Z (2 ^ 63)).
Proof.
  apply (to_python_large_integer_is_float (fun _ => "") _ (2 ^ 63)).
  - reflexivity.
  - right. lia.
Defined.

Lemma has_char_app (c : ascii) (a b : string) :
  has_char c (a ++ b) = has_char c a || has_char c b.
Proof.
  induction a as [|x a IH]; [reflexivity|].
  rewrite str_app_cons. simpl. rewrite IH, orb_assoc. reflexivity.
Qed.

Lemma str_length_app (a b : string) :
  String.length (a ++ b) = String.length a + String.length b.
Proof.
  induction a as [|x a IH]; [reflexivity|]. rewrite str_app_cons. simpl. lia.
Qed.

(** Every piece [strings.Split] returns is free of the separator and no
    longer than the input. *)
Lemma split_aux_pieces (sep : ascii) (s cur l : string) :
  has_char sep cur = false -> In l (split_aux sep s cur) ->
  has_char sep l = false /\ String.length l <= String.length cur + String.length s.
Proof.
  revert cur. induction s as [|a s IH]; intros cur Hcur Hin; simpl in Hin.
  - destruct Hin as [<-|[]]. simpl. split; [exact Hcur | lia].
  - destruct (Ascii.eqb a sep) eqn:Ha.
    + destruct Hin as [<-|Hin].
      * simpl. split; [exact Hcur | lia].
      * destruct (IH "" eq_refl Hin) as [H1 H2]. simpl in *. split; [exact H1 | lia].
    + destruct (IH (cur ++ String a "") ltac:(rewrite has_char_app; simpl;
                                              rewrite Hcur, Ha; reflexivity) Hin)
        as [H1 H2].
      rewrite str_length_app in H2. simpl in *. split; [exact H1 | lia].
Qed.

Lemma split_aux_app_sep (sep : ascii) (a rest cur : string) :
  has_char sep a = false ->
  split_aux sep (a ++ String sep rest) cur = (cur ++ a) :: split_aux sep rest "".
Proof.
  revert cur. induction a as [|x a IH]; intros cur Ha.
  - simpl. rewrite Ascii.eqb_refl, str_app_nil_r. reflexivity.
  - rewrite str_app_cons. simpl in Ha |- *. apply orb_false_iff in Ha as [Hx Ha].
    rewrite Hx, IH by exact Ha. rewrite str_app_assoc, str_app_cons. reflexivity.
Qed.

Lemma split_concat (sep : ascii) (ls : list string) :
  ls <> [] -> Forall (fun l => has_char sep l = false) ls ->
  split_aux sep (String.concat (String sep "") ls) "" = ls.
Proof.
  induction ls as [|x [|y ys] IH]; intros Hne Hall; [congruence| |].
  - inversion Hall; subst. simpl. rewrite split_aux_nosep by assumption. reflexivity.
  - inversion Hall as [|? ? Hx Hrest]; subst.
    change (String.concat (String sep "") (x :: y :: ys))
      with (x ++ String sep (String.concat (String sep "") (y :: ys))).
    rewrite split_aux_app_sep by exact Hx. rewrite IH by (congruence || exact Hrest).
    reflexivity.
Qed.

(** Every line [capture_chunk] keeps is non-empty, newline-free and no
    longer than the chunk. *)
Lemma capture_chunk_line_shape (chunk line : string) :
  In line (LogCapture.capture_chunk chunk) ->
  line <> "" /\ has_char LogCapture.newline line = false
  /\ String.length line <= String.length chunk.
Proof.
  intros Hl. unfold LogCapture.capture_chunk in Hl.
  apply filter_In in Hl as [Hsplit Hblank].
  destruct (split_aux_pieces LogCapture.newline chunk "" line eq_refl Hsplit) as [H1 H2].
  split; [|split; [exact H1 | simpl in H2; lia]].
  intros ->. discriminate Hblank.
Qed.

(** Every line the worker's output capture hands to the log callback is
    non-empty, free of newlines and no longer than the bytes of one read
    (at most 1024): a longer line reaches the coordinator in pieces. The
    level is always [INFO]. *)
Theorem captured_line_shape (chunk level line : string)
    (Hin : In (level, line) (LogCapture.callback_calls chunk)) :
  level = "INFO" /\ line <> ""
  /\ has_char LogCapture.newline line = false
  /\ String.length line <= String.length chunk.
Proof.
  unfold LogCapture.callback_calls in Hin. apply in_map_iff in Hin as [l [Heq Hl]].
  injection Heq as <- <-. split; [reflexivity|].
  exact (capture_chunk_line_shape chunk l Hl).
Qed.

Lemma captured_line_shape_witness :
  String.length "  ok" <= String.length ("  ok" ++ String LogCapture.newline " ").
Proof.
  refine (proj2 (proj2 (proj2 (captured_line_shape
            ("  ok" ++ String LogCapture.newline " ") "INFO" "  ok" _)))).
  vm_compute. left. reflexivity.
Defined.

(** A read holding whole lines is handed on line by line, in order, with
    the blank ones (only Unicode white space) left out. *)
Theorem capture_whole_lines (ls : list string)
    (Hls : Forall (fun l => has_char LogCapture.newline l = false) ls) :
  LogCapture.capture_chunk (String.concat (String LogCapture.newline "") ls)
  = List.filter (fun l => negb (LogCapture.all_space l)) ls.
Proof.
  unfold LogCapture.capture_chunk, split.
  destruct ls as [|x xs]; [reflexivity|].
  rewrite split_concat by (congruence || exact Hls). reflexivity.
Qed.

Lemma capture_whole_lines_witness :
  LogCapture.capture_chunk
    (String.concat (String LogCapture.newline "") ["step 1"; "   "; "step 2"])
  = ["step 1"; "step 2"].
Proof.
  refine (capture_whole_lines ["step 1"; "   "; "step 2"] _).
  repeat constructor.
Defined.

(** The worker publishes captured output only while an execution runs
    (its log topic set), and then each publication goes to that topic at
    QoS 0, not retained, as an [INFO] entry whose message is a
    non-empty, newline-free line no longer than the read it came from;
    between executions every line goes to the local log. *)
Theorem worker_log_publications (currentLogTopic now chunk : string)
    (o : LogCapture.log_out)
    (Hin : In o (LogCapture.publish_lines currentLogTopic now chunk)) :
  match o with
  | LogCapture.LPublish topic qos retained entry =>
      currentLogTopic <> "" /\ topic = currentLogTopic /\ qos = 0
      /\ retained = false /\ Level entry = "INFO" /\ Timestamp entry = now
      /\ Message entry <> ""
      /\ has_char LogCapture.newline (Message entry) = false
      /\ String.length (Message entry) <= String.length chunk
  | LogCapture.LLocal _ => currentLogTopic = ""
  end.
Proof.
  unfold LogCapture.publish_lines in Hin. apply in_map_iff in Hin as [l [<- Hl]].
  destruct (capture_chunk_line_shape chunk l Hl) as [H1 [H2 H3]].
  destruct (String.eqb currentLogTopic "") eqn:Ht.
  - apply String.eqb_eq in Ht. exact Ht.
  - apply String.eqb_neq in Ht. cbn. repeat split; assumption.
Qed.

Lemma worker_log_publications_witness :
  "tinpot/exec/id-1/log" <> "".
Proof.
  refine (proj1 (worker_log_publications "tinpot/exec/id-1/log" "t0" "hello"
                   (LogCapture.LPublish "tinpot/exec/id-1/log" 0 false
                      (mkLogEntry "t0" "INFO" "hello")) _)).
  vm_compute. left. reflexivity.
Defined.
